(** * pywps-flask demo server: a shallow embedding of [demo.py] and
      [processes/sayhello.py], and the properties of its handlers and of
      its bounded cache of result files. *)

From Stdlib Require Import ZArith DecimalString Floats.
From Stdlib Require DecimalNat.
From stdpp Require Import gmap strings list fin_maps.

Set Warnings "-register-all".

(** ** Python values that the handlers see *)

(** Exceptions that the modelled code can raise.  [HTTPException 404] is what
    [flask.abort(404)] raises. *)
Inductive exn :=
  | KeyError (key : string)
  | TypeError
  | ValueError
  | UnicodeError
  | IOError
  | OSError
  | XMLSyntaxError
  | CalledProcessError (returncode : Z)
  | HTTPException (code : Z).

Inductive result (A : Type) :=
  | Ok (a : A)
  | Raise (e : exn).
Arguments Ok {A} a.
Arguments Raise {A} e.

#[global] Instance result_ret : MRet result := fun A a => Ok a.
#[global] Instance result_bind : MBind result := fun A B f m =>
  match m with
  | Ok a => f a
  | Raise e => Raise e
  end.

(** [d[key]] on a dict with string keys. *)
Definition getitem {V : Type} (d : gmap string V) (key : string) : result V :=
  match d !! key with
  | Some v => Ok v
  | None => Raise (KeyError key)
  end.

(** [str(n)] for a non-negative [int]. *)
Definition str (n : nat) : string := NilEmpty.string_of_uint (Nat.to_uint n).

(** ** [collections.deque] with a [maxlen] *)

Module deque.
Section ops.
Context {A : Type}.

(** [deque.append]: the item is added on the right; a bounded deque that
    became longer than [maxlen] drops one item from the left. *)
Definition append (maxlen : nat) (x : A) (d : list A) : list A :=
  let d' := d ++ [x] in
  if decide (maxlen < length d') then drop 1 d' else d'.

(** A run of appends, one [append] for each item, in order. *)
Definition extend (maxlen : nat) (xs : list A) (d : list A) : list A :=
  foldl (fun acc x => append maxlen x acc) d xs.

End ops.
End deque.

(** ** The cache of result files *)

(** The dict built by [centroids]: keys ['uuid'], ['bytes'], ['mime-type']. *)
Record data_file := DataFile {
  uuid : string;
  bytes : string;
  mime_type : string
}.

(** [recent_data_files = deque(maxlen=20)] *)
Definition recent_data_files_maxlen : nat := 20.

(** [flask.Response(body)]: the route passes the body and nothing else, so
    the media type of the response is what the [mimetype] argument says,
    [None] when the call leaves it out (the framework default applies). *)
Record response := Response {
  response_data : string;
  response_mimetype : option string
}.

(** The loop of the [/datafile/<uuid>] route: a scan of the deque from its
    left (oldest) end.  The [for ... else] arm runs when the scan finds
    nothing. *)
Fixpoint datafile_scan (u : string) (files : list data_file) : result response :=
  match files with
  | [] => Raise (HTTPException 404)
  | data_file :: rest =>
      if decide (uuid data_file = u)
      then Ok (Response (bytes data_file) None)
      else datafile_scan u rest
  end.

(** ** JSON values, as [json.loads] builds them *)

(** A JSON object becomes a [dict]; its members are kept as an association
    list with unique keys.  Numbers are Python's [int] and [float]. *)
Inductive json :=
  | JNull
  | JBool (b : bool)
  | JInt (z : Z)
  | JFloat (f : float)
  | JStr (s : string)
  | JArr (elements : list json)
  | JObj (members : list (string * json)).

Fixpoint assoc_get (key : string) (members : list (string * json)) : option json :=
  match members with
  | [] => None
  | (k, v) :: rest => if decide (k = key) then Some v else assoc_get key rest
  end.

(** Assignment to a key: an existing member keeps its place and takes the new
    value, a new key is added. *)
Fixpoint assoc_set (key : string) (v : json) (members : list (string * json))
    : list (string * json) :=
  match members with
  | [] => [(key, v)]
  | (k, v0) :: rest =>
      if decide (k = key) then (k, v) :: rest else (k, v0) :: assoc_set key v rest
  end.

(** [o[key]] for a string key: only a dict can be subscripted by a string. *)
Definition json_getitem (o : json) (key : string) : result json :=
  match o with
  | JObj members =>
      match assoc_get key members with
      | Some v => Ok v
      | None => Raise (KeyError key)
      end
  | _ => Raise TypeError
  end.

(** [o[key] = v] for a string key. *)
Definition json_setitem (o : json) (key : string) (v : json) : result json :=
  match o with
  | JObj members => Ok (JObj (assoc_set key v members))
  | _ => Raise TypeError
  end.

(** What [for x in o] runs over: the elements of a list, the keys of a dict,
    the characters of a string; other values are not iterable. *)
Definition json_iter (o : json) : result (list json) :=
  match o with
  | JArr elements => Ok elements
  | JObj members => Ok (map (fun kv => JStr (fst kv)) members)
  | JStr s => Ok (map (fun c => JStr (String c EmptyString)) (String.list_ascii_of_string s))
  | _ => Raise TypeError
  end.

(** ** XML documents, as [lxml.etree] holds them *)

(** An element has a namespace URI, a local name and child nodes. *)
Inductive node :=
  | Element (namespace : string) (tag : string) (children : list node)
  | Text (content : string).

Definition node_children (n : node) : list node :=
  match n with
  | Element _ _ children => children
  | Text _ => []
  end.

(** The XPath axis [descendant-or-self::node()], in document order. *)
Fixpoint descendant_or_self (n : node) : list node :=
  n :: match n with
       | Element _ _ children => flat_map descendant_or_self children
       | Text _ => []
       end.

(** The node test [prefix:name] with the prefix bound to [namespace]. *)
Definition name_test (namespace tag : string) (n : node) : bool :=
  match n with
  | Element ns t _ => bool_decide (ns = namespace) && bool_decide (t = tag)
  | Text _ => false
  end.

(** [doc.xpath('//prefix:name')]: the path is short for
    [/descendant-or-self::node()/child::prefix:name], and the context node is
    the document node, whose only child is the root element. *)
Definition child_step (namespace tag : string) (context : list node) : list node :=
  flat_map (fun n => List.filter (name_test namespace tag) (node_children n))
    context.

Definition xpath_descendants (namespace tag : string) (root : node) : list node :=
  List.filter (name_test namespace tag) [root]
  ++ child_step namespace tag (descendant_or_self root).

(** The number of elements of a document that carry a given name, counted by
    a walk over the tree: the element itself plus what its children hold. *)
Fixpoint count_elements (namespace tag : string) (n : node) : nat :=
  (if name_test namespace tag n then 1 else 0)
  + match n with
    | Element _ _ children =>
        foldr (fun c acc => count_elements namespace tag c + acc) 0 children
    | Text _ => 0
    end.

(** ** The libraries and the tool that the handlers call *)

(** How a run of the conversion tool ends: the executable is not on [PATH],
    or the process exits with a status, having written the output file or
    not. *)
Inductive tool_run :=
  | ToolNotFound
  | ToolExit (returncode : Z) (written : option string).

(** The file system, as far as the handlers use it: directories by name, each
    with its files by name. *)
Abbreviation filesystem := (gmap string (gmap string string)).

(** The collaborators outside the repository.  Each is taken as it is: a
    function from what the handler passes to what the handler gets back. *)
Record externals := Externals {
  (** [lxml.etree.parse] on the layer; fails on text that is not well-formed *)
  etree_parse : string -> result node;
  (** the namespace that [pywps.app.xpath_ns] binds to the prefix [gml] *)
  gml_namespace : string;
  (** the name of the directory that [tempfile.mkdtemp] makes *)
  mkdtemp_name : filesystem -> string;
  (** [text.encode('utf-8')] and [bytes.decode('utf-8')] *)
  encode_utf8 : string -> result string;
  decode_utf8 : string -> result string;
  (** [ogr2ogr -f geojson out in], given the content of the input file *)
  ogr2ogr : option string -> tool_run;
  json_loads : string -> result json;
  (** [json.dumps(data, indent=2)] *)
  json_dumps : json -> string;
  (** [shapely.geometry]: [shape], the [centroid] attribute, [mapping] *)
  geometry : Type;
  shape : json -> result geometry;
  centroid : geometry -> geometry;
  mapping : geometry -> json;
  (** [str(uuid4())], by the number of identifiers drawn before *)
  uuid4 : nat -> string;
  (** scheme and host under which the application is served *)
  url_root : string
}.

(** ** The state of the process and of its surroundings *)

Record world := World {
  fs : filesystem;
  recent_data_files : list data_file;
  uuid_draws : nat
}.

(** Code that reads and writes the world and may raise. *)
Definition M (A : Type) : Type := world -> result A * world.

#[global] Instance M_ret : MRet M := fun A a w => (Ok a, w).
#[global] Instance M_bind : MBind M := fun A B f m w =>
  match m w with
  | (Ok a, w') => f a w'
  | (Raise e, w') => (Raise e, w')
  end.

Definition lift {A : Type} (r : result A) : M A := fun w => (r, w).

(** [try: body finally: cleanup]: the cleanup runs on both exits of the body;
    the outcome of the body stands unless the cleanup itself raises. *)
Definition try_finally {A : Type} (body : M A) (cleanup : M unit) : M A :=
  fun w =>
    let '(r, w1) := body w in
    match cleanup w1 with
    | (Ok _, w2) => (r, w2)
    | (Raise e, w2) => (Raise e, w2)
    end.

(** A path [dir / name]. *)
Definition path : Type := string * string.

Definition set_fs (f : filesystem -> filesystem) (w : world) : world :=
  World (f (fs w)) (recent_data_files w) (uuid_draws w).

(** [path.write_bytes]: creates or truncates the file; the directory must
    exist. *)
Definition write_bytes (p : path) (content : string) : M unit := fun w =>
  match fs w !! p.1 with
  | Some files => (Ok tt, set_fs <[p.1 := <[p.2 := content]> files]> w)
  | None => (Raise IOError, w)
  end.

Definition read_file (p : path) (w : world) : option string :=
  fs w !! p.1 ≫= fun files => files !! p.2.

(** [path.rmtree]: removes the directory and what it holds. *)
Definition rmtree (dir : string) : M unit := fun w =>
  match fs w !! dir with
  | Some _ => (Ok tt, set_fs (delete dir) w)
  | None => (Raise OSError, w)
  end.

(** [recent_data_files.append(data_file)] *)
Definition recent_data_files_append (data_file : data_file) : M unit := fun w =>
  (Ok tt,
   World (fs w)
     (deque.append recent_data_files_maxlen data_file (recent_data_files w))
     (uuid_draws w)).

(** ** Requests and responses of the processing service *)

Record wps_request := WPSRequest { inputs : gmap string string }.

Record file_reference := FileReference {
  reference_url : string;
  reference_mime_type : string
}.

Inductive output :=
  | OutLiteral (value : string)
  | OutReference (reference : file_reference).

Record wps_response := WPSResponse { outputs : gmap string output }.

(** ** [demo.py] *)

Section demo.
Context (E : externals).

(** [temp_dir]: the context manager makes a directory, hands it to the body
    of the [with] statement and removes it in its [finally] clause. *)
Definition mkdtemp : M string := fun w =>
  let tmp := mkdtemp_name E (fs w) in
  (Ok tmp, set_fs <[tmp := ∅]> w).

Definition temp_dir {A : Type} (body : string -> M A) : M A :=
  tmp ← mkdtemp;
  try_finally (body tmp) (rmtree tmp).

(** [say_hello]: ["Hello %s!" % request.inputs['name']] *)
Definition say_hello (request : wps_request) : result wps_response :=
  name ← getitem (inputs request) "name";
  mret (WPSResponse {[ "message" := OutLiteral ("Hello " +:+ name +:+ "!") ]}).

(** [feature_count] *)
Definition feature_count (request : wps_request) : result wps_response :=
  layer ← getitem (inputs request) "layer";
  doc ← etree_parse E layer;
  let feature_elements := xpath_descendants (gml_namespace E) "featureMember" doc in
  mret (WPSResponse {[ "count" := OutLiteral (str (length feature_elements)) ]}).

(** [subprocess.check_call(['ogr2ogr', '-f', 'geojson', out, in])]: the tool
    runs on the input file and may write the output file; a status other
    than zero raises. *)
Definition check_call_ogr2ogr (out inp : path) : M unit := fun w =>
  match ogr2ogr E (read_file inp w) with
  | ToolNotFound => (Raise OSError, w)
  | ToolExit returncode written =>
      let w' :=
        match written, fs w !! out.1 with
        | Some content, Some files =>
            set_fs <[out.1 := <[out.2 := content]> files]> w
        | _, _ => w
        end in
      if decide (returncode = 0%Z) then (Ok tt, w')
      else (Raise (CalledProcessError returncode), w')
  end.

(** [path.text(encoding='utf-8')] *)
Definition path_text (p : path) : M string := fun w =>
  match read_file p w with
  | Some content => (decode_utf8 E content, w)
  | None => (Raise IOError, w)
  end.

(** The body of the loop over the features:
    [geom = shape(feature['geometry'])] and then
    [feature['geometry'] = mapping(geom.centroid)]. *)
Definition centroid_feature (feature : json) : result json :=
  g ← json_getitem feature "geometry";
  geom ← shape E g;
  json_setitem feature "geometry" (mapping E (centroid E geom)).

(** The loop, one feature after the other; it stops at the first that
    raises. *)
Fixpoint centroid_each (features : list json) : result (list json) :=
  match features with
  | [] => Ok []
  | feature :: rest =>
      feature' ← centroid_feature feature;
      rest' ← centroid_each rest;
      mret (feature' :: rest')
  end.

(** [for feature in data['features']: ...]: the features are updated in place,
    so [data] sees the new geometries when they sit in a list.  The keys of a
    dict and the characters of a string are values of their own. *)
Definition centroid_features (data : json) : result json :=
  features ← json_getitem data "features";
  items ← json_iter features;
  items' ← centroid_each items;
  match features with
  | JArr _ => json_setitem data "features" (JArr items')
  | _ => mret data
  end.

(** [str(uuid4())] *)
Definition draw_uuid4 : M string := fun w =>
  (Ok (uuid4 E (uuid_draws w)),
   World (fs w) (recent_data_files w) (S (uuid_draws w))).

(** [flask.url_for('datafile', uuid=u, _external=True)] with the route
    ['/datafile/<uuid>'] of [create_app]. *)
Definition url_for_datafile (u : string) : string :=
  url_root E +:+ "/datafile/" +:+ u.

(** [centroids] *)
Definition centroids (request : wps_request) : M wps_response :=
  temp_dir (fun tmp =>
    let input_gml : path := (tmp, "input.gml") in
    layer ← lift (getitem (inputs request) "layer");
    content ← lift (encode_utf8 E layer);
    write_bytes input_gml content;;
    let input_geojson : path := (tmp, "input.geojson") in
    check_call_ogr2ogr input_geojson input_gml;;
    text ← path_text input_geojson;
    data ← lift (json_loads E text);
    data ← lift (centroid_features data);
    let out_bytes := json_dumps E data in
    u ← draw_uuid4;
    let data_file := DataFile u out_bytes "application/json" in
    recent_data_files_append data_file;;
    let url := url_for_datafile (uuid data_file) in
    let reference := FileReference url (mime_type data_file) in
    mret (WPSResponse {[ "centroids_layer" := OutReference reference ]})).

(** The route [/datafile/<uuid>] *)
Definition datafile (u : string) : M response := fun w =>
  (datafile_scan u (recent_data_files w), w).

(** What a client can ask of the application: one of the three processes
    behind [/wps], or a result file. *)
Inductive operation :=
  | CallSayHello (request : wps_request)
  | CallFeatureCount (request : wps_request)
  | CallCentroids (request : wps_request)
  | GetDatafile (u : string).

(** The world after one operation; a request that fails leaves the server
    running with the state the failure left. *)
Definition step (w : world) (op : operation) : world :=
  match op with
  | CallSayHello request => w
  | CallFeatureCount request => w
  | CallCentroids request => (centroids request w).2
  | GetDatafile u => (datafile u w).2
  end.

Definition run (ops : list operation) (w : world) : world := foldl step w ops.

End demo.

(** The cache on its own: a put is an [append], a find is the scan of the
    retrieval route. *)
Inductive cache_op :=
  | Put (entry : data_file)
  | Find (u : string).

Definition cache_step (w : world) (op : cache_op) : world :=
  match op with
  | Put entry => (recent_data_files_append entry w).2
  | Find u => (datafile u w).2
  end.

Definition cache_run (ops : list cache_op) (w : world) : world :=
  foldl cache_step w ops.

(** The entries put by a run of operations, in the order of the run. *)
Definition puts (ops : list cache_op) : list data_file :=
  omap (fun op => match op with Put entry => Some entry | Find _ => None end) ops.

(** The state of a server that has just started. *)
Definition initial_world (files : filesystem) : world := World files [] 0.

(** ** [processes/sayhello.py] *)

Module SayHello.

Record literal_input := LiteralInput { input_data : string }.

(** An output slot of the response: its [data] and its unit of measure, both
    unset until a handler fills them. *)
Record literal_output := LiteralOutput {
  data : option string;
  uom : option string
}.

Record request := Request { inputs : gmap string literal_input }.
Record response := Response { outputs : gmap string literal_output }.

(** [SayHello._handler]: the right-hand side is evaluated first, then the
    slot is looked up for each of the two assignments. *)
Definition _handler (req : request) (resp : response) : result response :=
  name ← getitem (inputs req) "name";
  let text := "Hello " +:+ input_data name in
  slot ← getitem (outputs resp) "response";
  let resp :=
    Response (<["response" := LiteralOutput (Some text) (uom slot)]> (outputs resp)) in
  slot ← getitem (outputs resp) "response";
  let resp :=
    Response (<["response" := LiteralOutput (data slot) (Some "unity")]> (outputs resp)) in
  mret resp.

End SayHello.

(** ** Statements about code that runs on the world *)

(** From a world that satisfies [P], the code ends in a result and a world
    that satisfy [Q]. *)
Definition hoare {A : Type} (P : world -> Prop) (m : M A)
    (Q : result A -> world -> Prop) : Prop :=
  ∀ w, P w -> Q (m w).1 (m w).2.

(** The code keeps [P], whatever its result. *)
Definition preserves {A : Type} (P : world -> Prop) (m : M A) : Prop :=
  hoare P m (fun _ w => P w).

(** The temporary directory [tmp] exists, and every other directory is as in
    the file system [files]. *)
Definition only_tmp_differs (tmp : string) (files : filesystem) (w : world) : Prop :=
  is_Some (fs w !! tmp) ∧ ∀ dir, dir ≠ tmp -> fs w !! dir = files !! dir.

(** The cache holds exactly the entries [cache], in this order. *)
Definition cache_is (cache : list data_file) (w : world) : Prop :=
  recent_data_files w = cache.

(** The cache is [cache] as it was, or [cache] after one [append]. *)
Definition cache_grew (cache : list data_file) (w : world) : Prop :=
  recent_data_files w = cache
  ∨ ∃ entry,
      recent_data_files w = deque.append recent_data_files_maxlen entry cache.

(** The features of [data] with their geometries replaced: [feature'] is
    [feature] with the centroid of its geometry under the key ['geometry']. *)
Definition centroid_of (E : externals) (feature feature' : json) : Prop :=
  ∃ members g geom,
    feature = JObj members
    ∧ assoc_get "geometry" members = Some g
    ∧ shape E g = Ok geom
    ∧ feature' = JObj (assoc_set "geometry" (mapping E (centroid E geom)) members).

(** ** A sample layer and stand-ins for the libraries *)

Module sample.

Definition gml : string := "http://www.opengis.net/gml".
Definition wfs : string := "http://www.opengis.net/wfs".

Definition point_xml (coordinates : string) : node :=
  Element gml "Point" [Element gml "coordinates" [Text coordinates]].

Definition member (name : string) (coordinates : string) : node :=
  Element gml "featureMember"
    [Element EmptyString "place"
       [Element EmptyString "name" [Text name];
        Element EmptyString "geometryProperty" [point_xml coordinates]]].

(** A collection of three features. *)
Definition doc : node :=
  Element wfs "FeatureCollection"
    [Text " ";
     member "a" "1,2";
     member "b" "3,4";
     Text " ";
     member "c" "5,6"].

Definition layer : string := "<wfs:FeatureCollection>...</wfs:FeatureCollection>".
Definition broken_layer : string := "<wfs:FeatureCollection>".

Definition point (x y : Z) : json :=
  JObj [("type", JStr "Point"); ("coordinates", JArr [JInt x; JInt y])].

Definition feature (name : string) (x y : Z) : json :=
  JObj [("type", JStr "Feature");
        ("properties", JObj [("name", JStr name)]);
        ("geometry", point x y)].

Definition geojson : json :=
  JObj [("type", JStr "FeatureCollection");
        ("features", JArr [feature "a" 1 2; feature "b" 3 4; feature "c" 5 6])].

Definition geojson_text : string := "{type: FeatureCollection, features: [...]}".

(** Stand-ins that know the sample layer and nothing else: the parser and the
    tool accept [layer] only, geometries are points with integer
    coordinates, and a point is its own centroid. *)
Definition libraries : externals := {|
  etree_parse := fun text =>
    if decide (text = layer) then Ok doc else Raise XMLSyntaxError;
  gml_namespace := gml;
  mkdtemp_name := fun _ => "/tmp/tmpx3k9";
  encode_utf8 := Ok;
  decode_utf8 := Ok;
  ogr2ogr := fun content =>
    match content with
    | Some text =>
        if decide (text = layer) then ToolExit 0 (Some geojson_text)
        else ToolExit 1 None
    | None => ToolExit 1 None
    end;
  json_loads := fun text =>
    if decide (text = geojson_text) then Ok geojson else Raise ValueError;
  json_dumps := fun data =>
    match json_getitem data "features" ≫= json_iter with
    | Ok features => "features: " +:+ str (length features)
    | Raise _ => "null"
    end;
  geometry := Z * Z;
  shape := fun g =>
    match g with
    | JObj [("type", JStr "Point"); ("coordinates", JArr [JInt x; JInt y])] =>
        Ok (x, y)
    | _ => Raise ValueError
    end;
  centroid := fun p => p;
  mapping := fun p => point p.1 p.2;
  uuid4 := fun n => "0b1e-" +:+ str n;
  url_root := "http://localhost:5000"
|}.

Definition entry (n : nat) : data_file :=
  DataFile (uuid4 libraries n) ("payload " +:+ str n) "application/json".

End sample.

(** ** What [centroids] computes, apart from the files it goes through *)

(** The text that the conversion tool leaves for a layer: the process must be
    found, exit with status zero and have written its output file. *)
Definition converted_layer (E : externals) (content : string) : result string :=
  match ogr2ogr E (Some content) with
  | ToolNotFound => Raise OSError
  | ToolExit returncode written =>
      if decide (returncode = 0%Z) then
        match written with
        | Some converted => Ok converted
        | None => Raise IOError
        end
      else Raise (CalledProcessError returncode)
  end.

(** The bytes of the result file, as a function of the request alone.  This
    is the reference that the handler is compared with; it is not a
    transcription of the handler. *)
Definition centroids_pipeline (E : externals) (request : wps_request)
    : result string :=
  layer ← getitem (inputs request) "layer";
  content ← encode_utf8 E layer;
  converted ← converted_layer E content;
  text ← decode_utf8 E converted;
  data ← json_loads E text;
  data' ← centroid_features E data;
  mret (json_dumps E data').

(** The body of the [with] statement of [centroids], for the directory that
    [temp_dir] hands over. *)
Definition centroids_body (E : externals) (request : wps_request)
    (tmp : string) : M wps_response :=
  let input_gml : path := (tmp, "input.gml") in
  layer ← lift (getitem (inputs request) "layer");
  content ← lift (encode_utf8 E layer);
  write_bytes input_gml content;;
  let input_geojson : path := (tmp, "input.geojson") in
  check_call_ogr2ogr E input_geojson input_gml;;
  text ← path_text E input_geojson;
  data ← lift (json_loads E text);
  data ← lift (centroid_features E data);
  let out_bytes := json_dumps E data in
  u ← draw_uuid4 E;
  let data_file := DataFile u out_bytes "application/json" in
  recent_data_files_append data_file;;
  let url := url_for_datafile E (uuid data_file) in
  let reference := FileReference url (mime_type data_file) in
  mret (WPSResponse {[ "centroids_layer" := OutReference reference ]}).

(** The response of [centroids] for the identifier [u]: a reference to the
    retrieval route, with media type [application/json]. *)
Definition reference_to (E : externals) (u : string) : wps_response :=
  WPSResponse
    {[ "centroids_layer" :=
         OutReference (FileReference (url_for_datafile E u) "application/json") ]}.

(** The identifiers of the cache come from draws already made. *)
Definition ids_drawn (E : externals) (w : world) : Prop :=
  ∀ entry, entry ∈ recent_data_files w ->
    ∃ k, k < uuid_draws w ∧ uuid entry = uuid4 E k.

(** ** The entry point of [demo.py] *)

(** [s.split(sep)] for a separator of one character: the pieces between the
    occurrences of the separator, so one piece more than occurrences. *)
Fixpoint split (sep : Ascii.ascii) (s : string) : list string :=
  match s with
  | EmptyString => [EmptyString]
  | String c rest =>
      if decide (c = sep) then EmptyString :: split sep rest
      else
        match split sep rest with
        | piece :: pieces => String c piece :: pieces
        | [] => [String c EmptyString]
        end
  end.

(** The number of occurrences of a character. *)
Fixpoint occurrences (c : Ascii.ascii) (s : string) : nat :=
  match s with
  | EmptyString => 0
  | String c' rest => (if decide (c' = c) then 1 else 0) + occurrences c rest
  end.

(** What the user typed: the optional positional [listen] and the flags
    [-d/--debug] and [-w/--waitress]. *)
Record command_line := CommandLine {
  given_listen : option string;
  given_debug : bool;
  given_waitress : bool
}.

(** The namespace that [parser.parse_args()] returns. *)
Record parsed_args := Namespace {
  listen : string;
  debug : bool;
  waitress : bool
}.

(** [nargs='?'] with [default='localhost:5000'], and two [store_true]
    flags. *)
Definition parse_args (typed : command_line) : parsed_args :=
  Namespace (default "localhost:5000"%string (given_listen typed))
    (given_debug typed) (given_waitress typed).

(** The server that [main] starts. *)
Inductive serving :=
  | WaitressServe (host : string) (port : Z)
  | RunSimple (host : string) (port : Z) (use_reloader : bool).

(** The application with its [debug] attribute, and the server it is handed
    to. *)
Record launch := Launch {
  app_debug : bool;
  server : serving
}.

(** The separator [':'] of [host:port]. *)
Definition colon : Ascii.ascii := Ascii.Ascii false true false true true true false false.

Section entry_point.
(** [int(text)], the builtin. *)
Variable int_of_str : string -> result Z.

(** [main]: [host, port = args.listen.split(':')] needs exactly two pieces. *)
Definition main (typed : command_line) : result launch :=
  let args := parse_args typed in
  let app_debug := debug args in
  match split colon (listen args) with
  | [host; port] =>
      port ← int_of_str port;
      mret (Launch app_debug
              (if waitress args then WaitressServe host port
               else RunSimple host port app_debug))
  | _ => Raise ValueError
  end.

End entry_point.

(** ** What the handlers leave, read back *)

(** A feature whose geometry the loop of [centroids] can take: the feature
    has the key ['geometry'] and [shape] reads what is under it. *)
Definition readable_feature (E : externals) (feature : json) : Prop :=
  ∃ g geom, json_getitem feature "geometry" = Ok g ∧ shape E g = Ok geom.

(** [feature'] read against [feature]: under ['geometry'] it has
    [mapping(geom.centroid)] for the geometry that [shape] read from
    [feature], and under every other key what [feature] has. *)
Definition centroid_replaced (E : externals) (feature feature' : json) : Prop :=
  ∃ g geom,
    json_getitem feature "geometry" = Ok g
    ∧ shape E g = Ok geom
    ∧ json_getitem feature' "geometry" = Ok (mapping E (centroid E geom))
    ∧ ∀ key, key ≠ "geometry"%string ->
        json_getitem feature' key = json_getitem feature key.

(** A GeoJSON geometry of type [Point]. *)
Definition is_point (g : json) : Prop :=
  json_getitem g "type" = Ok (JStr "Point").

(** A URL with a scheme and an authority in front of its path. *)
Definition absolute_url (url : string) : Prop :=
  ∃ scheme rest, scheme ≠ EmptyString ∧ url = scheme +:+ "://" +:+ rest.

(** * Properties *)

(** ** The bounded deque *)

Section deque_facts.
Context {A : Type}.
Implicit Types (d xs : list A) (x : A) (n : nat).

Lemma append_below n x d :
  length d < n -> deque.append n x d = d ++ [x].
Proof.
  intros Hlt. unfold deque.append. cbn zeta.
  rewrite length_app. cbn. case_decide; [lia | done].
Qed.

Lemma append_full n x d :
  0 < n -> n <= length d -> deque.append n x d = drop 1 d ++ [x].
Proof.
  intros Hpos Hle. unfold deque.append. cbn zeta.
  rewrite length_app. cbn. case_decide; [|lia].
  destruct d as [|y d]; [cbn in Hle; lia | done].
Qed.

Lemma append_length n x d :
  0 < n -> length d <= n -> length (deque.append n x d) <= n.
Proof.
  intros Hpos Hle. destruct (decide (length d < n)) as [Hlt|Hge].
  - rewrite append_below by done. rewrite length_app. cbn. lia.
  - rewrite append_full by lia. rewrite length_app, length_drop. cbn. lia.
Qed.

(** An append keeps the last [n] items of what was there plus the new one. *)
Lemma append_window n x d :
  0 < n -> length d <= n ->
  deque.append n x d = drop (length (d ++ [x]) - n) (d ++ [x]).
Proof.
  intros Hpos Hle. rewrite length_app. cbn [length].
  destruct (decide (length d < n)) as [Hlt|Hge].
  - rewrite append_below by done.
    replace (length d + 1 - n) with 0 by lia. done.
  - rewrite append_full by lia.
    replace (length d + 1 - n) with 1 by lia.
    rewrite drop_app_le; [done | lia].
Qed.

(** From an empty deque, a run of appends leaves the last [n] items of the
    run, in the order of the run. *)
Lemma extend_window n xs :
  0 < n -> deque.extend n xs [] = drop (length xs - n) xs.
Proof.
  intros Hpos. unfold deque.extend.
  induction xs as [|x xs IH] using rev_ind; [done|].
  rewrite foldl_app. cbn [foldl]. rewrite IH.
  rewrite append_window by (rewrite ?length_drop; lia).
  rewrite !length_app, length_drop. cbn [length].
  rewrite <- drop_app_le by lia.
  rewrite drop_drop. f_equal. lia.
Qed.

End deque_facts.

(** ** The scan of the retrieval route *)

Lemma datafile_scan_absent u files :
  u ∉ uuid <$> files -> datafile_scan u files = Raise (HTTPException 404).
Proof.
  induction files as [|f files IH]; cbn; [done|].
  intros Hnot. apply not_elem_of_cons in Hnot as [Hne Hnot].
  case_decide; [congruence | auto].
Qed.

Lemma datafile_scan_found u files r :
  datafile_scan u files = Ok r -> u ∈ uuid <$> files.
Proof.
  induction files as [|f files IH]; cbn; [done|].
  case_decide as Heq.
  - intros _. subst u. apply elem_of_cons. by left.
  - intros Hr. apply elem_of_cons. right. auto.
Qed.

(** The scan answers with the first entry, from the left, that carries the
    identifier. *)
Lemma datafile_scan_first older e newer :
  uuid e ∉ uuid <$> older ->
  datafile_scan (uuid e) (older ++ e :: newer) = Ok (Response (bytes e) None).
Proof.
  induction older as [|f older IH]; cbn.
  - intros _. case_decide; [done | congruence].
  - intros Hnot. apply not_elem_of_cons in Hnot as [Hne Hnot].
    case_decide; [congruence | auto].
Qed.

(** ** Runs of cache operations *)

Lemma cache_run_extend ops w :
  cache_run ops w =
  World (fs w)
    (deque.extend recent_data_files_maxlen (puts ops) (recent_data_files w))
    (uuid_draws w).
Proof.
  unfold cache_run, deque.extend. revert w.
  induction ops as [|op ops IH]; intros w; cbn [foldl].
  - by destruct w.
  - rewrite IH. destruct op as [entry|u]; cbn; done.
Qed.

Lemma puts_of_puts (entries : list data_file) :
  puts (Put <$> entries) = entries.
Proof. induction entries as [|e entries IH]; cbn; [done | by f_equal]. Qed.

(** C1: for every run of puts (and finds, in any interleaving) on the cache
    of a freshly started server, the cache holds at most 20 entries; it holds
    exactly the last 20 entries put, in the order they were put, whatever was
    looked up in between; and a further put on a cache below 20 entries adds
    the entry at the end, on a cache of 20 entries drops the oldest entry and
    adds the new one at the end. *)
Theorem cache_bounded_fifo (files : filesystem) (ops : list cache_op) :
  let w := cache_run ops (initial_world files) in
  length (recent_data_files w) <= 20
  ∧ recent_data_files w = drop (length (puts ops) - 20) (puts ops)
  ∧ ∀ entry,
      recent_data_files (cache_step w (Put entry)) =
      (if decide (length (recent_data_files w) < 20)
       then recent_data_files w
       else drop 1 (recent_data_files w)) ++ [entry].
Proof.
  cbn zeta. rewrite cache_run_extend. cbn [recent_data_files initial_world].
  unfold recent_data_files_maxlen.
  rewrite extend_window by lia.
  split_and!.
  - rewrite length_drop. lia.
  - done.
  - intros entry. cbn. unfold recent_data_files_maxlen.
    case_decide as Hlen.
    + by rewrite append_below.
    + rewrite append_full; [done | lia | lia].
Qed.

(** C2: after 21 entries with pairwise distinct identifiers are put into the
    cache of a freshly started server, a lookup by the identifier of the
    first one answers 404, and the cache holds the other 20 entries, in the
    order they were put. *)
Theorem cache_21_distinct (files : filesystem) (first : data_file)
    (rest : list data_file) :
  length rest = 20 ->
  NoDup (uuid <$> first :: rest) ->
  let w := cache_run (Put <$> first :: rest) (initial_world files) in
  datafile (uuid first) w = (Raise (HTTPException 404), w)
  ∧ recent_data_files w = rest.
Proof.
  intros Hlen Hnodup. cbn zeta.
  rewrite cache_run_extend, puts_of_puts.
  cbn [recent_data_files initial_world fs uuid_draws].
  unfold recent_data_files_maxlen. rewrite extend_window by lia.
  cbn [length]. rewrite Hlen. cbn [Nat.sub drop].
  split; [|done].
  unfold datafile. cbn [recent_data_files]. f_equal.
  apply datafile_scan_absent.
  rewrite fmap_cons in Hnodup. by apply NoDup_cons in Hnodup as [? _].
Qed.

(** C10: when several entries of the cache carry the same identifier, the
    lookup answers with the payload of the oldest of them: of the entry that
    has no entry with this identifier on its left, whatever stands on its
    right. *)
Theorem datafile_oldest_match (w : world) (older newer : list data_file)
    (e : data_file) :
  recent_data_files w = older ++ e :: newer ->
  uuid e ∉ uuid <$> older ->
  datafile (uuid e) w = (Ok (Response (bytes e) None), w).
Proof.
  intros Hcache Hfirst. unfold datafile. rewrite Hcache.
  by rewrite datafile_scan_first.
Qed.

(** ** Counting elements through the path expression *)

(** Induction on a document tree, with the hypothesis for every child. *)
Lemma node_tree_ind (P : node -> Prop) :
  (∀ content, P (Text content)) ->
  (∀ namespace tag children,
      Forall P children -> P (Element namespace tag children)) ->
  ∀ n, P n.
Proof.
  intros Htext Helem. fix IH 1. intros [namespace tag children|content].
  - apply Helem. induction children as [|c children IHc].
    + constructor.
    + constructor; [apply IH | apply IHc].
  - apply Htext.
Qed.

Section xpath_facts.
Variables namespace tag : string.

Lemma filter_count_length (children : list node) :
  length (List.filter (name_test namespace tag) children)
  = foldr (fun c acc => (if name_test namespace tag c then 1 else 0) + acc)
      0 children.
Proof.
  induction children as [|c children IH]; [done|].
  cbn. destruct (name_test namespace tag c); cbn; lia.
Qed.

(** What the child step selects below a list of siblings is what it selects
    below each of them, one after the other. *)
Lemma child_step_siblings (children : list node) :
  child_step namespace tag (flat_map descendant_or_self children)
  = flat_map
      (fun c => child_step namespace tag (descendant_or_self c)) children.
Proof.
  unfold child_step.
  induction children as [|c children IH]; [done|].
  cbn [flat_map]. rewrite flat_map_app. by rewrite IH.
Qed.

Lemma count_elements_child_step (n : node) :
  count_elements namespace tag n
  = (if name_test namespace tag n then 1 else 0)
    + length (child_step namespace tag (descendant_or_self n)).
Proof.
  induction n as [content|ns t children IH] using node_tree_ind; [done|].
  cbn [count_elements]. f_equal.
  cbn [descendant_or_self].
  change (child_step namespace tag
            (Element ns t children :: flat_map descendant_or_self children))
    with (List.filter (name_test namespace tag) children
          ++ child_step namespace tag (flat_map descendant_or_self children)).
  rewrite length_app, child_step_siblings, filter_count_length.
  clear ns t. induction IH as [|c children Hc _ IHch]; [done|].
  cbn [foldr flat_map]. rewrite length_app, Hc, IHch. lia.
Qed.

(** The path expression selects each element of the given name once. *)
Lemma xpath_descendants_length (root : node) :
  length (xpath_descendants namespace tag root)
  = count_elements namespace tag root.
Proof.
  unfold xpath_descendants. rewrite length_app, count_elements_child_step.
  f_equal. cbn. by destruct (name_test namespace tag root).
Qed.

End xpath_facts.

(** [str] writes decimal digits. *)
Example str_3 : str 3 = "3"%string.
Proof. reflexivity. Qed.

Example str_0 : str 0 = "0"%string.
Proof. reflexivity. Qed.

Example str_120 : str 120 = "120"%string.
Proof. reflexivity. Qed.

(** C8: when the layer parses to a document, the count that [feature_count]
    answers is the decimal string of the number of [gml:featureMember]
    elements of the document; when the parser raises on the layer, the same
    error leaves the handler and no count is answered. *)
Theorem feature_count_spec (E : externals) (request : wps_request)
    (layer : string) :
  inputs request !! "layer" = Some layer ->
  (∀ doc, etree_parse E layer = Ok doc ->
     feature_count E request =
     Ok (WPSResponse
           {[ "count" :=
                OutLiteral
                  (str (count_elements (gml_namespace E) "featureMember" doc)) ]}))
  ∧ (∀ e, etree_parse E layer = Raise e -> feature_count E request = Raise e).
Proof.
  intros Hlayer. unfold feature_count, getitem. rewrite Hlayer.
  split.
  - intros doc Hdoc. cbn [mbind result_bind mret result_ret]. rewrite Hdoc.
    cbn [mbind result_bind mret result_ret].
    by rewrite xpath_descendants_length.
  - intros e He. cbn. by rewrite He.
Qed.

(** ** The greeting handlers *)

Lemma say_hello_run (request : wps_request) (s : string) :
  inputs request !! "name" = Some s ->
  say_hello request =
  Ok (WPSResponse {[ "message" := OutLiteral ("Hello " +:+ s +:+ "!") ]}).
Proof. intros Hname. unfold say_hello, getitem. by rewrite Hname. Qed.

Lemma sayhello_handler_run (req : SayHello.request) (resp : SayHello.response)
    (s : string) (slot : SayHello.literal_output) :
  SayHello.inputs req !! "name" = Some (SayHello.LiteralInput s) ->
  SayHello.outputs resp !! "response" = Some slot ->
  SayHello._handler req resp =
  Ok (SayHello.Response
        (<["response" :=
             SayHello.LiteralOutput (Some ("Hello " +:+ s)) (Some "unity")]>
           (SayHello.outputs resp))).
Proof.
  intros Hname Hslot.
  unfold SayHello._handler, getitem. rewrite Hname, Hslot.
  cbn [mbind result_bind mret result_ret SayHello.outputs SayHello.input_data].
  rewrite lookup_insert_eq.
  cbn [mbind result_bind mret result_ret SayHello.outputs SayHello.data].
  by rewrite insert_insert_eq.
Qed.

(** C7, as the code has it: [say_hello] of [demo.py] answers the name between
    ["Hello "] and ["!"]; [SayHello._handler] of [processes/sayhello.py]
    answers the name after ["Hello "], with nothing behind it, and sets the
    unit of the output. *)
Theorem greeting_templates (s : string) :
  (∀ request,
     inputs request !! "name" = Some s ->
     say_hello request =
     Ok (WPSResponse {[ "message" := OutLiteral ("Hello " +:+ s +:+ "!") ]}))
  ∧ (∀ req resp slot,
       SayHello.inputs req !! "name" = Some (SayHello.LiteralInput s) ->
       SayHello.outputs resp !! "response" = Some slot ->
       SayHello._handler req resp =
       Ok (SayHello.Response
             (<["response" :=
                  SayHello.LiteralOutput (Some ("Hello " +:+ s)) (Some "unity")]>
                (SayHello.outputs resp)))).
Proof.
  split.
  - intros request. apply say_hello_run.
  - intros req resp slot. apply sayhello_handler_run.
Qed.

Lemma greeting_templates_witness :
  say_hello (WPSRequest {[ "name" := "World" ]}) =
  Ok (WPSResponse {[ "message" := OutLiteral "Hello World!" ]})
  ∧ SayHello._handler
      (SayHello.Request {[ "name" := SayHello.LiteralInput "World" ]})
      (SayHello.Response {[ "response" := SayHello.LiteralOutput None None ]}) =
    Ok (SayHello.Response
          {[ "response" :=
               SayHello.LiteralOutput (Some "Hello World") (Some "unity") ]}).
Proof.
  destruct (greeting_templates "World") as [Hdemo Hprocess]. split.
  - apply Hdemo. reflexivity.
  - rewrite (Hprocess _ _ (SayHello.LiteralOutput None None));
      [| reflexivity | reflexivity].
    cbn [SayHello.outputs]. by rewrite insert_singleton_eq.
Defined.

(** C7, as the claim has it, fails on [SayHello._handler]: for the name
    ["World"] the text in the output slot is not ["Hello World!"]. *)
Lemma sayhello_handler_no_exclamation :
  ¬ ∃ resp slot,
      SayHello._handler
        (SayHello.Request {[ "name" := SayHello.LiteralInput "World" ]})
        (SayHello.Response {[ "response" := SayHello.LiteralOutput None None ]})
      = Ok resp
      ∧ SayHello.outputs resp !! "response" = Some slot
      ∧ SayHello.data slot = Some "Hello World!"%string.
Proof.
  intros (resp & slot & Hrun & Hslot & Hdata).
  rewrite (sayhello_handler_run _ _ "World" (SayHello.LiteralOutput None None))
    in Hrun; [| reflexivity | reflexivity].
  injection Hrun as <-. cbn [SayHello.outputs] in Hslot.
  rewrite lookup_insert_eq in Hslot. injection Hslot as <-.
  cbn in Hdata. discriminate Hdata.
Qed.

(** ** Instances on the sample data *)

Lemma cache_21_distinct_witness :
  let w :=
    cache_run (Put <$> sample.entry 0 :: (sample.entry <$> seq 1 20))
      (initial_world ∅) in
  datafile (uuid (sample.entry 0)) w = (Raise (HTTPException 404), w)
  ∧ recent_data_files w = sample.entry <$> seq 1 20.
Proof.
  apply (cache_21_distinct ∅ (sample.entry 0) (sample.entry <$> seq 1 20)).
  - reflexivity.
  - apply (bool_decide_unpack _). vm_compute. exact I.
Defined.

Lemma feature_count_spec_witness :
  feature_count sample.libraries (WPSRequest {[ "layer" := sample.layer ]}) =
  Ok (WPSResponse {[ "count" := OutLiteral "3" ]})
  ∧ feature_count sample.libraries
      (WPSRequest {[ "layer" := sample.broken_layer ]}) =
    Raise XMLSyntaxError.
Proof.
  split.
  - destruct (feature_count_spec sample.libraries
                (WPSRequest {[ "layer" := sample.layer ]}) sample.layer)
      as [Hok _]; [reflexivity|].
    apply (Hok sample.doc). reflexivity.
  - destruct (feature_count_spec sample.libraries
                (WPSRequest {[ "layer" := sample.broken_layer ]})
                sample.broken_layer)
      as [_ Hraise]; [reflexivity|].
    apply Hraise. reflexivity.
Defined.

Lemma datafile_oldest_match_witness :
  let w :=
    World ∅
      [DataFile "0b1e-7" "old" "application/json";
       DataFile "0b1e-8" "other" "application/json";
       DataFile "0b1e-7" "new" "application/json"]
      9 in
  datafile "0b1e-7" w = (Ok (Response "old" None), w).
Proof.
  apply (datafile_oldest_match _ []
           [DataFile "0b1e-8" "other" "application/json";
            DataFile "0b1e-7" "new" "application/json"]
           (DataFile "0b1e-7" "old" "application/json")).
  - reflexivity.
  - cbn. apply not_elem_of_nil.
Defined.

(** ** Rules for code that runs on the world *)

Section rules.
Context {A B : Type}.
Implicit Types (P : world -> Prop) (w : world).

Lemma hoare_bind_inv P (Q : result B -> world -> Prop) (m : M A) (f : A -> M B) :
  preserves P m ->
  (∀ e w, P w -> Q (Raise e) w) ->
  (∀ a, hoare P (f a) Q) ->
  hoare P (m ≫= f) Q.
Proof.
  intros Hm Hraise Hf w HP. specialize (Hm w HP).
  unfold mbind, M_bind. destruct (m w) as [[a|e] w']; cbn in *.
  - by apply Hf.
  - by apply Hraise.
Qed.

Lemma preserves_bind P (m : M A) (f : A -> M B) :
  preserves P m -> (∀ a, preserves P (f a)) -> preserves P (m ≫= f).
Proof. intros Hm Hf. apply hoare_bind_inv; [done | auto | done]. Qed.

Lemma hoare_ret P (Q : result A -> world -> Prop) (a : A) :
  (∀ w, P w -> Q (Ok a) w) -> hoare P (mret a) Q.
Proof. intros HQ w HP. by apply HQ. Qed.

Lemma preserves_ret P (a : A) : preserves P (mret a : M A).
Proof. by apply hoare_ret. Qed.

Lemma preserves_lift P (r : result A) : preserves P (lift r).
Proof. by intros w HP. Qed.

End rules.

(** ** What each step of [centroids] touches *)

Section steps.
Context (E : externals).
Implicit Types (w : world) (p : path) (tmp : string) (files : filesystem).

Lemma write_bytes_cache p content w :
  recent_data_files (write_bytes p content w).2 = recent_data_files w.
Proof. unfold write_bytes. by destruct (fs w !! p.1). Qed.

Lemma check_call_cache out inp w :
  recent_data_files (check_call_ogr2ogr E out inp w).2 = recent_data_files w.
Proof.
  unfold check_call_ogr2ogr.
  destruct (ogr2ogr E _) as [|rc [content|]]; [done | |];
    destruct (fs w !! out.1); by case_decide.
Qed.

Lemma path_text_world p w : (path_text E p w).2 = w.
Proof. unfold path_text. by destruct (read_file p w). Qed.

(** A write into a file of [tmp] keeps the rest of the file system. *)
Lemma set_file_only_tmp tmp name content dirfiles files w :
  only_tmp_differs tmp files w ->
  only_tmp_differs tmp files
    (set_fs <[tmp := <[name := content]> dirfiles]> w).
Proof.
  intros [_ Hrest]. split; cbn.
  - rewrite lookup_insert_eq. eauto.
  - intros dir Hne. rewrite lookup_insert_ne by done. auto.
Qed.

Lemma write_bytes_only_tmp tmp name content files :
  preserves (only_tmp_differs tmp files) (write_bytes (tmp, name) content).
Proof.
  intros w Hinv. unfold write_bytes. cbn [fst snd].
  destruct (fs w !! tmp) as [dirfiles|]; cbn [snd]; [|done].
  by apply set_file_only_tmp.
Qed.

Lemma check_call_only_tmp tmp name inp files :
  preserves (only_tmp_differs tmp files) (check_call_ogr2ogr E (tmp, name) inp).
Proof.
  intros w Hinv. unfold check_call_ogr2ogr. cbn [fst snd].
  destruct (ogr2ogr E _) as [|rc [content|]]; [done | |].
  - destruct (fs w !! tmp) as [dirfiles|]; case_decide; cbn [snd];
      try done; by apply set_file_only_tmp.
  - by case_decide.
Qed.

Lemma path_text_preserves (P : world -> Prop) p : preserves P (path_text E p).
Proof. intros w HP. cbn beta. by rewrite path_text_world. Qed.

Lemma draw_uuid4_only_tmp tmp files :
  preserves (only_tmp_differs tmp files) (draw_uuid4 E).
Proof. by intros w Hinv. Qed.

Lemma append_only_tmp tmp files entry :
  preserves (only_tmp_differs tmp files) (recent_data_files_append entry).
Proof. by intros w Hinv. Qed.

(** [temp_dir] leaves the file system as it found it, less the directory it
    made, when its body writes below this directory only. *)
Lemma temp_dir_removes {A : Type} (body : string -> M A) w :
  (∀ tmp files, preserves (only_tmp_differs tmp files) (body tmp)) ->
  fs (temp_dir E body w).2 = delete (mkdtemp_name E (fs w)) (fs w).
Proof.
  intros Hbody. unfold temp_dir, mbind, M_bind, mkdtemp, try_finally.
  cbn beta iota zeta. set (tmp := mkdtemp_name E (fs w)).
  set (w1 := set_fs <[tmp := ∅]> w).
  assert (only_tmp_differs tmp (fs w) w1) as Hw1.
  { split; cbn.
    - rewrite lookup_insert_eq. eauto.
    - intros dir Hne. by rewrite lookup_insert_ne. }
  specialize (Hbody tmp (fs w) w1 Hw1). cbn beta in Hbody.
  destruct (body tmp w1) as [r w2]. cbn [snd] in Hbody.
  destruct Hbody as [[dirfiles Hdir] Hrest].
  unfold rmtree. rewrite Hdir. cbn.
  apply map_eq. intros dir. destruct (decide (dir = tmp)) as [->|Hne].
  - by rewrite !lookup_delete_eq.
  - rewrite !lookup_delete_ne by done. auto.
Qed.

End steps.

(** ** [centroids] and the file system *)

Section centroids_frame.
Context (E : externals).
Implicit Types (w : world) (request : wps_request).

Lemma centroids_fs request w :
  fs (centroids E request w).2 = delete (mkdtemp_name E (fs w)) (fs w).
Proof.
  unfold centroids. apply temp_dir_removes. intros tmp files. cbn zeta.
  apply preserves_bind; [apply preserves_lift | intros layer].
  apply preserves_bind; [apply preserves_lift | intros content].
  apply preserves_bind; [apply write_bytes_only_tmp | intros _].
  apply preserves_bind; [apply check_call_only_tmp | intros _].
  apply preserves_bind; [apply path_text_preserves | intros text].
  apply preserves_bind; [apply preserves_lift | intros data].
  apply preserves_bind; [apply preserves_lift | intros data'].
  apply preserves_bind; [apply draw_uuid4_only_tmp | intros u].
  apply preserves_bind; [apply append_only_tmp | intros _].
  apply preserves_ret.
Qed.

(** ** [centroids] and the cache *)

Lemma write_bytes_cache_is cache p content :
  preserves (cache_is cache) (write_bytes p content).
Proof. intros w Hc. unfold cache_is. by rewrite write_bytes_cache. Qed.

Lemma check_call_cache_is cache out inp :
  preserves (cache_is cache) (check_call_ogr2ogr E out inp).
Proof. intros w Hc. unfold cache_is. by rewrite check_call_cache. Qed.

Lemma draw_uuid4_cache_is cache : preserves (cache_is cache) (draw_uuid4 E).
Proof. by intros w Hc. Qed.

(** [temp_dir] makes and removes a directory; what its body does to the cache
    is all that happens to the cache. *)
Lemma temp_dir_cache {A : Type} (body : string -> M A) cache :
  (∀ tmp, hoare (cache_is cache) (body tmp) (fun _ => cache_grew cache)) ->
  hoare (cache_is cache) (temp_dir E body) (fun _ => cache_grew cache).
Proof.
  intros Hbody w Hc. unfold temp_dir, mbind, M_bind, mkdtemp, try_finally.
  cbn beta iota zeta. set (tmp := mkdtemp_name E (fs w)).
  set (w1 := set_fs <[tmp := ∅]> w).
  specialize (Hbody tmp w1 Hc). cbn beta in Hbody.
  destruct (body tmp w1) as [r w2]. cbn [snd] in Hbody.
  unfold rmtree. by destruct (fs w2 !! tmp).
Qed.

Lemma centroids_cache request cache :
  hoare (cache_is cache) (centroids E request) (fun _ => cache_grew cache).
Proof.
  assert (∀ (e : exn) w, cache_is cache w -> cache_grew cache w) as Hraise
    by (intros _ w Hc; by left).
  unfold centroids. apply temp_dir_cache. intros tmp. cbn zeta.
  apply hoare_bind_inv; [apply preserves_lift | done | intros layer].
  apply hoare_bind_inv; [apply preserves_lift | done | intros content].
  apply hoare_bind_inv; [apply write_bytes_cache_is | done | intros _].
  apply hoare_bind_inv; [apply check_call_cache_is | done | intros _].
  apply hoare_bind_inv; [apply path_text_preserves | done | intros text].
  apply hoare_bind_inv; [apply preserves_lift | done | intros data].
  apply hoare_bind_inv; [apply preserves_lift | done | intros data'].
  apply hoare_bind_inv; [apply draw_uuid4_cache_is | done | intros u].
  intros w Hc. unfold cache_is in Hc. subst cache. right. eexists.
  unfold mbind, M_bind, recent_data_files_append. cbn. done.
Qed.

End centroids_frame.

(** C5: whatever a call of [centroids] ends in, a response or an exception
    of any step (of the conversion tool among them), the directory that the
    call made is gone when the call ends, and the file system is the one
    before the call less this name. *)
Theorem centroids_removes_temp_dir (E : externals) (request : wps_request)
    (w : world) :
  let tmp := mkdtemp_name E (fs w) in
  let w' := (centroids E request w).2 in
  fs w' !! tmp = None ∧ fs w' = delete tmp (fs w).
Proof.
  cbn zeta. rewrite centroids_fs. split; [apply lookup_delete_eq | done].
Qed.

(** C9: the retrieval route gives back the world it was given; and after any
    one operation the cache is what it was, or what it was with one entry
    added at the end, where the oldest entry is gone only when the cache
    already held 20 entries. *)
Theorem only_eviction_removes (E : externals) (w : world) (op : operation) :
  (∀ u, (datafile u w).2 = w)
  ∧ let cache := recent_data_files w in
    let cache' := recent_data_files (step E w op) in
    cache' = cache
    ∨ ∃ entry,
        cache' =
        (if decide (length cache < 20) then cache else drop 1 cache) ++ [entry].
Proof.
  split; [done|]. cbn zeta.
  destruct op as [request|request|request|u]; cbn [step]; try by left.
  destruct (centroids_cache E request (recent_data_files w) w) as [Hsame|[e He]];
    [done | by left |].
  right. exists e. rewrite He. unfold recent_data_files_maxlen.
  case_decide.
  - by rewrite append_below.
  - rewrite append_full; [done | lia | lia].
Qed.

(** ** Runs of [centroids] *)

Section runs.
Context (E : externals).
Implicit Types (w : world) (request : wps_request) (tmp : string).

Lemma bind_ok {A B : Type} (m : M A) (f : A -> M B) w a w' :
  m w = (Ok a, w') -> (m ≫= f) w = f a w'.
Proof. intros Hm. unfold mbind, M_bind. by rewrite Hm. Qed.

Lemma bind_raise {A B : Type} (m : M A) (f : A -> M B) w e w' :
  m w = (Raise e, w') -> (m ≫= f) w = (Raise e, w').
Proof. intros Hm. unfold mbind, M_bind. by rewrite Hm. Qed.

Lemma temp_dir_run {A : Type} (body : string -> M A) w r w2 :
  body (mkdtemp_name E (fs w)) (set_fs <[mkdtemp_name E (fs w) := ∅]> w)
  = (r, w2) ->
  is_Some (fs w2 !! mkdtemp_name E (fs w)) ->
  temp_dir E body w = (r, set_fs (delete (mkdtemp_name E (fs w))) w2).
Proof.
  intros Hbody [dirfiles Hdir].
  unfold temp_dir, mbind, M_bind, mkdtemp, try_finally. cbn beta iota zeta.
  rewrite Hbody. unfold rmtree. by rewrite Hdir.
Qed.

Lemma write_bytes_run dir name content dirfiles w :
  fs w !! dir = Some dirfiles ->
  write_bytes (dir, name) content w
  = (Ok tt, set_fs <[dir := <[name := content]> dirfiles]> w).
Proof. intros Hdir. unfold write_bytes. cbn [fst snd]. by rewrite Hdir. Qed.

Lemma check_call_fails out inp w returncode written :
  ogr2ogr E (read_file inp w) = ToolExit returncode written ->
  returncode ≠ 0%Z ->
  check_call_ogr2ogr E out inp w
  = (Raise (CalledProcessError returncode), (check_call_ogr2ogr E out inp w).2).
Proof.
  intros Htool Hrc. unfold check_call_ogr2ogr. rewrite Htool.
  by case_decide.
Qed.

Lemma check_call_draws out inp w :
  uuid_draws (check_call_ogr2ogr E out inp w).2 = uuid_draws w.
Proof.
  unfold check_call_ogr2ogr.
  destruct (ogr2ogr E _) as [|rc [content|]]; [done | |];
    destruct (fs w !! out.1); by case_decide.
Qed.

Lemma check_call_run dir name inp w content dirfiles :
  ogr2ogr E (read_file inp w) = ToolExit 0 (Some content) ->
  fs w !! dir = Some dirfiles ->
  check_call_ogr2ogr E (dir, name) inp w
  = (Ok tt, set_fs <[dir := <[name := content]> dirfiles]> w).
Proof.
  intros Htool Hdir. unfold check_call_ogr2ogr. rewrite Htool.
  cbn [fst snd]. rewrite Hdir. by case_decide.
Qed.

Lemma path_text_run p w content text :
  read_file p w = Some content ->
  decode_utf8 E content = Ok text ->
  path_text E p w = (Ok text, w).
Proof. intros Hread Hdecode. unfold path_text. by rewrite Hread, Hdecode. Qed.

(** The loop over the features *)

Lemma centroid_feature_run feature feature' :
  centroid_of E feature feature' -> centroid_feature E feature = Ok feature'.
Proof.
  intros (members & g & geom & -> & Hg & Hshape & ->).
  unfold centroid_feature, json_getitem. rewrite Hg.
  cbn [mbind result_bind]. by rewrite Hshape.
Qed.

Lemma centroid_each_run features :
  Forall (fun feature => ∃ feature', centroid_of E feature feature') features ->
  ∃ features',
    centroid_each E features = Ok features'
    ∧ Forall2 (centroid_of E) features features'.
Proof.
  induction 1 as [|feature features [feature' Hf] _ (features' & Hrun & Hall)].
  - exists []. by split.
  - exists (feature' :: features'). split; [|by constructor].
    cbn [centroid_each]. rewrite (centroid_feature_run _ _ Hf).
    cbn [mbind result_bind]. by rewrite Hrun.
Qed.

Lemma centroid_features_run members features features' :
  assoc_get "features" members = Some (JArr features) ->
  centroid_each E features = Ok features' ->
  centroid_features E (JObj members)
  = Ok (JObj (assoc_set "features" (JArr features') members)).
Proof.
  intros Hget Hrun. unfold centroid_features, json_getitem. rewrite Hget.
  cbn [mbind result_bind json_iter]. by rewrite Hrun.
Qed.

End runs.

(** The newest entry of the cache after an [append]. *)
Lemma append_newest {A : Type} (n : nat) (x : A) (d : list A) :
  0 < n -> ∃ older, deque.append n x d = older ++ [x] ∧ older ⊆ d.
Proof.
  intros Hpos. destruct (decide (length d < n)) as [Hlt|Hge].
  - exists d. by rewrite append_below.
  - exists (drop 1 d). rewrite append_full by lia. split; [done|].
    apply subseteq_drop.
Qed.

(** The input file, read back after [write_bytes] has written it into the
    directory that [mkdtemp] made. *)
Lemma read_back tmp name content w :
  read_file (tmp, name)
    (set_fs <[tmp := <[name := content]> ∅]> (set_fs <[tmp := ∅]> w))
  = Some content.
Proof.
  unfold read_file. cbn. rewrite lookup_insert_eq. cbn.
  by rewrite lookup_insert_eq.
Qed.

(** C6: when the conversion tool, run on the layer that the handler wrote,
    exits with a status other than zero, [centroids] ends in the
    [CalledProcessError] of this status, which nothing in the handler
    catches, and the cache is as it was before the call. *)
Theorem centroids_tool_failure (E : externals) (request : wps_request)
    (w : world) (layer content : string) (returncode : Z)
    (written : option string) :
  inputs request !! "layer" = Some layer ->
  encode_utf8 E layer = Ok content ->
  ogr2ogr E (Some content) = ToolExit returncode written ->
  returncode ≠ 0%Z ->
  (centroids E request w).1 = Raise (CalledProcessError returncode)
  ∧ recent_data_files (centroids E request w).2 = recent_data_files w.
Proof.
  intros Hlayer Hencode Htool Hrc.
  set (tmp := mkdtemp_name E (fs w)).
  set (w1 := set_fs <[tmp := ∅]> w).
  set (w2 := set_fs <[tmp := <["input.gml" := content]> ∅]> w1).
  set (w3 := (check_call_ogr2ogr E (tmp, "input.geojson") (tmp, "input.gml") w2).2).
  unfold centroids.
  rewrite (temp_dir_run E _ w (Raise (CalledProcessError returncode)) w3).
  - split; [done|]. cbn [snd set_fs recent_data_files]. subst w3.
    by rewrite check_call_cache.
  - fold tmp w1. cbn zeta.
    erewrite bind_ok; [|by unfold lift, getitem; rewrite Hlayer].
    erewrite bind_ok; [|by unfold lift; rewrite Hencode].
    erewrite bind_ok;
      [|by apply (write_bytes_run tmp _ content ∅); apply lookup_insert_eq].
    fold w2. erewrite bind_raise; [done|].
    apply (check_call_fails E _ _ w2 returncode written); [|done].
    subst w2 w1. by rewrite read_back.
  - fold tmp. subst w3.
    assert (only_tmp_differs tmp (fs w2) w2) as Hw2.
    { split; [|done]. subst w2. cbn. rewrite lookup_insert_eq. eauto. }
    by destruct (check_call_only_tmp E tmp "input.geojson" (tmp, "input.gml")
                   (fs w2) w2 Hw2).
Qed.

(** ** [centroids] on the sample layer *)

Lemma centroids_tool_failure_witness :
  let request := WPSRequest {[ "layer" := sample.broken_layer ]} in
  let w := World ∅ (sample.entry <$> seq 1 20) 21 in
  (centroids sample.libraries request w).1 = Raise (CalledProcessError 1)
  ∧ recent_data_files (centroids sample.libraries request w).2
    = sample.entry <$> seq 1 20.
Proof.
  cbn zeta.
  destruct (centroids_tool_failure sample.libraries
              (WPSRequest {[ "layer" := sample.broken_layer ]})
              (World ∅ (sample.entry <$> seq 1 20) 21)
              sample.broken_layer sample.broken_layer 1 None)
    as [Hraise Hcache].
  - reflexivity.
  - reflexivity.
  - reflexivity.
  - discriminate.
  - split; [exact Hraise | exact Hcache].
Defined.

(** ** What the retrieval route answers *)

(** An entry put under an identifier that the cache does not hold is found
    under this identifier, and the body of the response is its payload. *)
Lemma fresh_entry_served (w : world) (entry : data_file) :
  uuid entry ∉ uuid <$> recent_data_files w ->
  let w' := (recent_data_files_append entry w).2 in
  datafile (uuid entry) w' = (Ok (Response (bytes entry) None), w').
Proof.
  intros Hfresh. cbn zeta. unfold datafile. cbn [snd recent_data_files_append
    recent_data_files].
  destruct (append_newest recent_data_files_maxlen entry (recent_data_files w))
    as (older & -> & Holder); [unfold recent_data_files_maxlen; lia|].
  f_equal. apply (datafile_scan_first older entry []).
  intros Hin. apply Hfresh.
  apply list_elem_of_fmap in Hin as (e & -> & He).
  apply list_elem_of_fmap. exists e. split; [done | by apply Holder].
Qed.

(** An identifier that no entry of the cache carries, because it was never
    put or because its entry has left, is answered with 404. *)
Lemma absent_not_found (w : world) (u : string) :
  u ∉ uuid <$> recent_data_files w ->
  datafile u w = (Raise (HTTPException 404), w).
Proof. intros Habsent. unfold datafile. by rewrite datafile_scan_absent. Qed.

(** No response of the route names a media type. *)
Lemma datafile_no_media_type (w : world) (u : string) (r : response) :
  (datafile u w).1 = Ok r -> response_mimetype r = None.
Proof.
  unfold datafile. cbn [fst].
  induction (recent_data_files w) as [|f files IH]; cbn; [done|].
  case_decide; [by intros [= <-] | done].
Qed.

(** C3, on one entry: the entry is put with media type [application/json]
    and found under its identifier; the response has the payload as its body
    and no media type, so the stored media type does not come back. *)
Theorem datafile_media_type_not_served :
  let entry := DataFile "0b1e-0" "{}" "application/json" in
  let w := (recent_data_files_append entry (initial_world ∅)).2 in
  ∃ r,
    datafile (uuid entry) w = (Ok r, w)
    ∧ response_data r = bytes entry
    ∧ response_mimetype r = None
    ∧ response_mimetype r ≠ Some (mime_type entry).
Proof.
  cbn zeta. eexists. split; [reflexivity|]. cbn. split_and!; done.
Qed.

(** ** The cache under every run of the application *)

(** X8: whatever the clients ask, in whatever order, the cache of a server
    that started empty holds at most 20 entries. *)
Lemma run_cache_bounded (E : externals) (files : filesystem)
    (ops : list operation) :
  length (recent_data_files (run E ops (initial_world files))) <= 20.
Proof.
  unfold run. induction ops as [|op ops IH] using rev_ind; [cbn; lia|].
  rewrite foldl_app. cbn [foldl].
  set (w := foldl (step E) (initial_world files) ops) in *.
  destruct op as [request|request|request|u]; cbn [step]; try done.
  destruct (centroids_cache E request (recent_data_files w) w) as [->|[e ->]];
    [done | done |].
  apply append_length; [unfold recent_data_files_maxlen; lia | done].
Qed.

(** * Further properties *)

(** ** [temp_dir] around any body *)

Lemma centroids_unfold (E : externals) (request : wps_request) :
  centroids E request = temp_dir E (centroids_body E request).
Proof. reflexivity. Qed.

Lemma temp_dir_passes (E : externals) {A : Type} (body : string -> M A)
    (w : world) :
  (∀ tmp files, preserves (only_tmp_differs tmp files) (body tmp)) ->
  let tmp := mkdtemp_name E (fs w) in
  let after := body tmp (set_fs <[tmp := ∅]> w) in
  temp_dir E body w = (after.1, set_fs (delete tmp) after.2).
Proof.
  intros Hbody. cbn zeta.
  set (tmp := mkdtemp_name E (fs w)). set (w1 := set_fs <[tmp := ∅]> w).
  assert (only_tmp_differs tmp (fs w) w1) as Hw1.
  { split; cbn.
    - rewrite lookup_insert_eq. eauto.
    - intros dir Hne. by rewrite lookup_insert_ne. }
  destruct (Hbody tmp (fs w) w1 Hw1) as [Hdir _].
  destruct (body tmp w1) as [r w2] eqn:Hrun.
  by apply temp_dir_run.
Qed.

Lemma centroids_body_only_tmp (E : externals) (request : wps_request)
    (tmp : string) (files : filesystem) :
  preserves (only_tmp_differs tmp files) (centroids_body E request tmp).
Proof.
  unfold centroids_body. cbn zeta.
  apply preserves_bind; [apply preserves_lift | intros layer].
  apply preserves_bind; [apply preserves_lift | intros content].
  apply preserves_bind; [apply write_bytes_only_tmp | intros _].
  apply preserves_bind; [apply check_call_only_tmp | intros _].
  apply preserves_bind; [apply path_text_preserves | intros text].
  apply preserves_bind; [apply preserves_lift | intros data].
  apply preserves_bind; [apply preserves_lift | intros data'].
  apply preserves_bind; [apply draw_uuid4_only_tmp | intros u].
  apply preserves_bind; [apply append_only_tmp | intros _].
  apply preserves_ret.
Qed.

(** X9: around a body that writes below its directory only, [temp_dir]
    hands on the result of the body, a value or an exception, and when the
    name that [mkdtemp] chose was free the file system after the block is the
    file system before it. *)
Theorem temp_dir_scoped (E : externals) {A : Type} (body : string -> M A)
    (w : world) :
  (∀ tmp files, preserves (only_tmp_differs tmp files) (body tmp)) ->
  fs w !! mkdtemp_name E (fs w) = None ->
  (temp_dir E body w).1
    = (body (mkdtemp_name E (fs w))
         (set_fs <[mkdtemp_name E (fs w) := ∅]> w)).1
  ∧ fs (temp_dir E body w).2 = fs w.
Proof.
  intros Hbody Hfree. split.
  - by rewrite (temp_dir_passes E body w Hbody).
  - rewrite (temp_dir_removes E body w Hbody). by apply delete_id.
Qed.

Lemma temp_dir_scoped_witness :
  let body := fun tmp => write_bytes (tmp, "notes.txt"%string) "draft" in
  let w := World {[ "/srv/data"%string := ∅ ]} [] 0 in
  (temp_dir sample.libraries body w).1 = Ok tt
  ∧ fs (temp_dir sample.libraries body w).2 = {[ "/srv/data"%string := ∅ ]}.
Proof.
  cbn zeta.
  destruct (temp_dir_scoped sample.libraries
              (fun tmp => write_bytes (tmp, "notes.txt"%string) "draft")
              (World {[ "/srv/data"%string := ∅ ]} [] 0))
    as [Hresult Hfs].
  - intros tmp files. apply write_bytes_only_tmp.
  - reflexivity.
  - split; [|exact Hfs]. rewrite Hresult. reflexivity.
Defined.

(** ** [centroids] against the pipeline *)

Section pipeline.
Context (E : externals).
Implicit Types (w : world) (request : wps_request) (tmp : string).

Lemma centroids_body_run request tmp w :
  fs w !! tmp = Some ∅ ->
  let after := centroids_body E request tmp w in
  match centroids_pipeline E request with
  | Ok out_bytes =>
      let u := uuid4 E (uuid_draws w) in
      after.1 = Ok (reference_to E u)
      ∧ recent_data_files after.2 =
          deque.append recent_data_files_maxlen
            (DataFile u out_bytes "application/json") (recent_data_files w)
      ∧ uuid_draws after.2 = S (uuid_draws w)
  | Raise e =>
      after.1 = Raise e
      ∧ recent_data_files after.2 = recent_data_files w
      ∧ uuid_draws after.2 = uuid_draws w
  end.
Proof.
  intros Hdir. cbn zeta.
  remember (centroids_body E request tmp w) as after eqn:Hrun.
  unfold centroids_body in Hrun. cbn zeta in Hrun.
  unfold centroids_pipeline.
  destruct (getitem (inputs request) "layer") as [layer|e] eqn:Hlayer;
    cbn [mbind result_bind].
  2:{ erewrite bind_raise in Hrun; [|by unfold lift; rewrite ?Hlayer].
      by subst after. }
  erewrite bind_ok in Hrun; [|by unfold lift; rewrite ?Hlayer].
  destruct (encode_utf8 E layer) as [content|e] eqn:Hencode;
    cbn [mbind result_bind].
  2:{ erewrite bind_raise in Hrun; [|by unfold lift; rewrite ?Hencode].
      by subst after. }
  erewrite bind_ok in Hrun; [|by unfold lift; rewrite ?Hencode].
  erewrite bind_ok in Hrun; [|by apply (write_bytes_run tmp _ content ∅)].
  set (w2 := set_fs <[tmp := <["input.gml" := content]> ∅]> w) in Hrun.
  assert (read_file (tmp, "input.gml"%string) w2 = Some content) as Hread.
  { unfold read_file. cbn. rewrite lookup_insert_eq. cbn.
    by rewrite lookup_insert_eq. }
  assert (fs w2 !! tmp = Some (<["input.gml" := content]> ∅)) as Hdir2.
  { cbn. by rewrite lookup_insert_eq. }
  unfold converted_layer.
  destruct (ogr2ogr E (Some content)) as [|returncode written] eqn:Htool;
    cbn [mbind result_bind].
  { erewrite bind_raise in Hrun;
      [|by unfold check_call_ogr2ogr; rewrite Hread, ?Htool].
    by subst after. }
  destruct (decide (returncode = 0%Z)) as [->|Hrc]; cbn [mbind result_bind].
  2:{ erewrite bind_raise in Hrun;
        [|by apply (check_call_fails E _ _ w2 returncode written);
             [rewrite Hread|]].
      subst after. cbn [fst snd].
      by rewrite check_call_cache, check_call_draws. }
  destruct written as [converted|]; cbn [mbind result_bind].
  2:{ erewrite bind_ok in Hrun.
      2:{ unfold check_call_ogr2ogr. rewrite Hread, ?Htool. cbn [fst snd].
          by case_decide. }
      erewrite bind_raise in Hrun.
      2:{ unfold path_text, read_file. cbn [fst snd]. rewrite Hdir2. cbn.
          by rewrite lookup_insert_ne. }
      by subst after. }
  erewrite bind_ok in Hrun;
    [|by apply (check_call_run E tmp _ _ w2 converted
                  (<["input.gml" := content]> ∅));
         [rewrite Hread|]].
  set (w3 := set_fs _ w2) in Hrun.
  assert (read_file (tmp, "input.geojson"%string) w3 = Some converted) as Hread3.
  { unfold read_file. cbn. rewrite lookup_insert_eq. cbn.
    by rewrite lookup_insert_eq. }
  destruct (decode_utf8 E converted) as [text|e] eqn:Hdecode;
    cbn [mbind result_bind].
  2:{ erewrite bind_raise in Hrun;
        [|by unfold path_text; rewrite Hread3, ?Hdecode].
      by subst after. }
  erewrite bind_ok in Hrun; [|by apply (path_text_run E _ w3 converted text)].
  destruct (json_loads E text) as [data|e] eqn:Hloads; cbn [mbind result_bind].
  2:{ erewrite bind_raise in Hrun; [|by unfold lift; rewrite ?Hloads].
      by subst after. }
  erewrite bind_ok in Hrun; [|by unfold lift; rewrite ?Hloads].
  destruct (centroid_features E data) as [data'|e] eqn:Hdata;
    cbn [mbind result_bind].
  2:{ erewrite bind_raise in Hrun; [|by unfold lift; rewrite ?Hdata].
      by subst after. }
  erewrite bind_ok in Hrun; [|by unfold lift; rewrite ?Hdata].
  erewrite bind_ok in Hrun; [|reflexivity].
  erewrite bind_ok in Hrun; [|reflexivity].
  by subst after.
Qed.

(** The handler as a whole: its result and what it leaves in the cache and
    in the count of draws are those of the pipeline. *)
Lemma centroids_as_pipeline request w :
  let after := centroids E request w in
  match centroids_pipeline E request with
  | Ok out_bytes =>
      let u := uuid4 E (uuid_draws w) in
      after.1 = Ok (reference_to E u)
      ∧ recent_data_files after.2 =
          deque.append recent_data_files_maxlen
            (DataFile u out_bytes "application/json") (recent_data_files w)
      ∧ uuid_draws after.2 = S (uuid_draws w)
  | Raise e =>
      after.1 = Raise e
      ∧ recent_data_files after.2 = recent_data_files w
      ∧ uuid_draws after.2 = uuid_draws w
  end.
Proof.
  cbn zeta. rewrite centroids_unfold.
  rewrite (temp_dir_passes E _ w (centroids_body_only_tmp E request)).
  cbn [fst snd].
  apply (centroids_body_run request (mkdtemp_name E (fs w))
           (set_fs <[mkdtemp_name E (fs w) := ∅]> w)).
  cbn. apply lookup_insert_eq.
Qed.

End pipeline.

(** ** Outcomes of [centroids] *)

Lemma pipeline_tool_succeeded (E : externals) (request : wps_request)
    (out_bytes : string) :
  centroids_pipeline E request = Ok out_bytes ->
  ∃ layer content converted,
    inputs request !! "layer" = Some layer
    ∧ encode_utf8 E layer = Ok content
    ∧ ogr2ogr E (Some content) = ToolExit 0 (Some converted).
Proof.
  unfold centroids_pipeline, getitem.
  destruct (inputs request !! "layer") as [layer|] eqn:Hlayer; [|done].
  cbn [mbind result_bind].
  destruct (encode_utf8 E layer) as [content|] eqn:Hencode; [|done].
  cbn [mbind result_bind]. unfold converted_layer.
  destruct (ogr2ogr E (Some content)) as [|returncode [converted|]] eqn:Htool;
    [done| |].
  - case_decide; [|done]. subst. intros _.
    by exists layer, content, converted.
  - by case_decide.
Qed.

(** X11: a call of [centroids] that ends in a response has had a layer, has
    seen the tool exit with status zero and write its output, has drawn one
    identifier, answers the reference to the retrieval route for this
    identifier, and has appended to the cache one entry with this identifier
    and media type [application/json]. *)
Theorem centroids_success_shape (E : externals) (request : wps_request)
    (w : world) (resp : wps_response) :
  (centroids E request w).1 = Ok resp ->
  let u := uuid4 E (uuid_draws w) in
  ∃ layer content converted out_bytes,
    inputs request !! "layer" = Some layer
    ∧ encode_utf8 E layer = Ok content
    ∧ ogr2ogr E (Some content) = ToolExit 0 (Some converted)
    ∧ resp =
        WPSResponse
          {[ "centroids_layer" :=
               OutReference
                 (FileReference (url_root E +:+ "/datafile/" +:+ u)
                    "application/json") ]}
    ∧ recent_data_files (centroids E request w).2 =
        deque.append 20 (DataFile u out_bytes "application/json")
          (recent_data_files w)
    ∧ uuid_draws (centroids E request w).2 = S (uuid_draws w).
Proof.
  intros Hok. cbn zeta.
  pose proof (centroids_as_pipeline E request w) as Hrun. cbn zeta in Hrun.
  destruct (centroids_pipeline E request) as [out_bytes|e] eqn:Hpipe.
  - destruct Hrun as (Hresp & Hcache & Hdraws).
    destruct (pipeline_tool_succeeded E request out_bytes Hpipe)
      as (layer & content & converted & Hlayer & Hencode & Htool).
    exists layer, content, converted, out_bytes.
    split_and!; try done. rewrite Hok in Hresp. by injection Hresp as ->.
  - destruct Hrun as (Hraise & _). congruence.
Qed.

Lemma centroids_success_shape_witness :
  let request := WPSRequest {[ "layer" := sample.layer ]} in
  let w := World ∅ [] 0 in
  ∃ out_bytes,
    recent_data_files (centroids sample.libraries request w).2
    = [DataFile "0b1e-0" out_bytes "application/json"].
Proof.
  cbn zeta.
  destruct (centroids_success_shape sample.libraries
              (WPSRequest {[ "layer" := sample.layer ]}) (World ∅ [] 0)
              (reference_to sample.libraries "0b1e-0"))
    as (layer & content & converted & out_bytes & _ & _ & _ & _ & Hcache & _).
  - reflexivity.
  - exists out_bytes. exact Hcache.
Defined.

(** X12: a request without the input that a handler reads ends the handler
    in the [KeyError] of this input: [say_hello] for ['name'],
    [feature_count] (before any parsing) and [centroids] (with the cache
    left as it was) for ['layer']. *)
Theorem handlers_missing_input (E : externals) (request : wps_request)
    (w : world) :
  (inputs request !! "name" = None ->
   say_hello request = Raise (KeyError "name"))
  ∧ (inputs request !! "layer" = None ->
     feature_count E request = Raise (KeyError "layer")
     ∧ (centroids E request w).1 = Raise (KeyError "layer")
     ∧ recent_data_files (centroids E request w).2 = recent_data_files w).
Proof.
  split.
  - intros Hname. unfold say_hello, getitem. by rewrite Hname.
  - intros Hlayer. split.
    + unfold feature_count, getitem. by rewrite Hlayer.
    + pose proof (centroids_as_pipeline E request w) as Hrun.
      cbn zeta in Hrun. unfold centroids_pipeline, getitem in Hrun.
      rewrite Hlayer in Hrun. cbn [mbind result_bind] in Hrun.
      by destruct Hrun as (Hraise & Hcache & _).
Qed.

Lemma handlers_missing_input_witness :
  say_hello (WPSRequest ∅) = Raise (KeyError "name")
  ∧ feature_count sample.libraries (WPSRequest ∅) = Raise (KeyError "layer")
  ∧ (centroids sample.libraries (WPSRequest ∅) (initial_world ∅)).1
    = Raise (KeyError "layer").
Proof.
  destruct (handlers_missing_input sample.libraries (WPSRequest ∅)
              (initial_world ∅)) as [Hname Hlayer].
  split; [by apply Hname|].
  destruct Hlayer as (Hcount & Hcentroids & _); [reflexivity|].
  by split.
Defined.

(** ** The cache over time *)

Lemma extend_window_from {A : Type} (n : nat) (xs d : list A) :
  0 < n -> length d <= n ->
  deque.extend n xs d = drop (length (d ++ xs) - n) (d ++ xs).
Proof.
  intros Hpos Hd. unfold deque.extend.
  induction xs as [|x xs IH] using rev_ind.
  - cbn. rewrite app_nil_r. by replace (length d - n) with 0 by lia.
  - rewrite foldl_app. cbn [foldl]. rewrite IH.
    rewrite append_window by (rewrite ?length_drop; lia).
    rewrite !length_app, length_drop, !length_app. cbn [length].
    rewrite <- drop_app_le by (rewrite length_app; lia).
    rewrite drop_drop, <- app_assoc. f_equal. lia.
Qed.

Lemma append_newest_sublist {A : Type} (n : nat) (x : A) (d : list A) :
  0 < n -> ∃ older, deque.append n x d = older ++ [x] ∧ older `sublist_of` d.
Proof.
  intros Hpos. destruct (decide (length d < n)) as [Hlt|Hge].
  - exists d. by rewrite append_below.
  - exists (drop 1 d). rewrite append_full by lia. split; [done|].
    apply sublist_drop.
Qed.

Lemma datafile_scan_app u files later r :
  datafile_scan u files = Ok r -> datafile_scan u (files ++ later) = Ok r.
Proof.
  induction files as [|f files IH]; cbn; [done|]. by case_decide.
Qed.

Lemma datafile_scan_only_404 u files e :
  datafile_scan u files = Raise e -> e = HTTPException 404.
Proof.
  induction files as [|f files IH]; cbn; [congruence|]. by case_decide.
Qed.

Lemma datafile_scan_served u files r :
  datafile_scan u files = Ok r ->
  ∃ entry, entry ∈ files ∧ uuid entry = u ∧ r = Response (bytes entry) None.
Proof.
  induction files as [|f files IH]; cbn; [done|].
  case_decide as Heq.
  - intros [= <-]. exists f. split_and!; [apply elem_of_cons; by left | done..].
  - intros Hr. destruct (IH Hr) as (entry & Hin & Hu & ->).
    exists entry. split_and!; [apply elem_of_cons; by right | done..].
Qed.

(** X1: from a cache of at most 20 entries, a run of puts and finds leaves
    the last 20 of the entries that were there followed by the entries put,
    and touches neither the files nor the count of draws. *)
Theorem cache_run_window (w : world) (ops : list cache_op) :
  length (recent_data_files w) <= 20 ->
  let all := recent_data_files w ++ puts ops in
  cache_run ops w = World (fs w) (drop (length all - 20) all) (uuid_draws w).
Proof.
  intros Hlen. cbn zeta. rewrite cache_run_extend.
  unfold recent_data_files_maxlen. by rewrite extend_window_from by lia.
Qed.

Lemma cache_run_window_witness :
  cache_run
    (Put (sample.entry 20) :: Find "0b1e-0" :: Put (sample.entry 21) :: [])
    (World ∅ (sample.entry <$> seq 0 20) 20)
  = World ∅ (sample.entry <$> seq 2 20) 20.
Proof.
  rewrite (cache_run_window (World ∅ (sample.entry <$> seq 0 20) 20)).
  - reflexivity.
  - cbn. lia.
Defined.

(** X2: an entry put under an identifier that neither the cache nor the
    later entries carry is served under this identifier as long as fewer
    than 20 entries were put after it, and answered with 404 from the 20th
    later put on. *)
Theorem entry_lifetime (w : world) (entry : data_file)
    (later : list data_file) :
  length (recent_data_files w) <= 20 ->
  uuid entry ∉ uuid <$> recent_data_files w ->
  uuid entry ∉ uuid <$> later ->
  let w' := cache_run (Put <$> entry :: later) w in
  datafile (uuid entry) w' =
  (if decide (length later < 20) then Ok (Response (bytes entry) None)
   else Raise (HTTPException 404), w').
Proof.
  intros Hlen Hcache Hlater. cbn zeta.
  rewrite cache_run_extend, puts_of_puts. unfold datafile.
  cbn [recent_data_files fs uuid_draws]. f_equal.
  unfold recent_data_files_maxlen. rewrite extend_window_from by lia.
  set (cache := recent_data_files w) in *.
  rewrite length_app. cbn [length].
  case_decide as Hk.
  - rewrite drop_app_le by lia. apply datafile_scan_first.
    intros Hin. apply Hcache.
    apply list_elem_of_fmap in Hin as (e & -> & He).
    apply list_elem_of_fmap. exists e. split; [done|].
    by eapply subseteq_drop.
  - rewrite drop_app_ge by lia. apply datafile_scan_absent.
    destruct (length cache + S (length later) - 20 - length cache)
      as [|k] eqn:Hd; [lia|].
    cbn [drop]. intros Hin. apply Hlater.
    apply list_elem_of_fmap in Hin as (e & -> & He).
    apply list_elem_of_fmap. exists e. split; [done|].
    by eapply subseteq_drop.
Qed.

Lemma entry_lifetime_witness :
  let w := World ∅ [sample.entry 0; sample.entry 1] 2 in
  let kept := cache_run (Put <$> sample.entry 2 :: (sample.entry <$> seq 3 19)) w in
  let gone := cache_run (Put <$> sample.entry 2 :: (sample.entry <$> seq 3 20)) w in
  datafile "0b1e-2" kept = (Ok (Response "payload 2" None), kept)
  ∧ datafile "0b1e-2" gone = (Raise (HTTPException 404), gone).
Proof.
  cbn zeta. split.
  - rewrite (entry_lifetime (World ∅ [sample.entry 0; sample.entry 1] 2)
               (sample.entry 2) (sample.entry <$> seq 3 19)).
    + reflexivity.
    + cbn. lia.
    + apply (bool_decide_unpack _). vm_compute. exact I.
    + apply (bool_decide_unpack _). vm_compute. exact I.
  - rewrite (entry_lifetime (World ∅ [sample.entry 0; sample.entry 1] 2)
               (sample.entry 2) (sample.entry <$> seq 3 20)).
    + reflexivity.
    + cbn. lia.
    + apply (bool_decide_unpack _). vm_compute. exact I.
    + apply (bool_decide_unpack _). vm_compute. exact I.
Defined.

(** X3: the retrieval route serves only what is stored: a response has the
    payload of an entry of the cache that carries the identifier asked for;
    the route fails exactly when no entry carries it, and then with 404 and
    nothing else. *)
Theorem datafile_serves_stored (w : world) (u : string) :
  (∀ r, (datafile u w).1 = Ok r ->
     ∃ entry,
       entry ∈ recent_data_files w ∧ uuid entry = u
       ∧ r = Response (bytes entry) None)
  ∧ (∀ e, (datafile u w).1 = Raise e ->
       e = HTTPException 404 ∧ u ∉ uuid <$> recent_data_files w)
  ∧ (u ∉ uuid <$> recent_data_files w ->
     (datafile u w).1 = Raise (HTTPException 404)).
Proof.
  unfold datafile. cbn [fst]. split_and!.
  - intros r. apply datafile_scan_served.
  - intros e He. split; [by eapply datafile_scan_only_404|].
    intros Hin. apply list_elem_of_fmap in Hin as (entry & -> & Hentry).
    apply list_elem_of_split in Hentry as (l1 & l2 & Hsplit).
    rewrite Hsplit in He. clear Hsplit.
    induction l1 as [|f l1 IH]; cbn in He.
    + by case_decide.
    + case_decide; [done | auto].
  - apply datafile_scan_absent.
Qed.

Lemma datafile_serves_stored_witness :
  (datafile "0b1e-5" (World ∅ [sample.entry 4] 5)).1
  = Raise (HTTPException 404).
Proof.
  destruct (datafile_serves_stored (World ∅ [sample.entry 4] 5) "0b1e-5")
    as (_ & _ & Habsent).
  apply Habsent. apply (bool_decide_unpack _). vm_compute. exact I.
Defined.

(** X4: a put changes what an identifier is answered with in one way only,
    by pushing out the oldest entry: what was served for an identifier before
    the put is served after it, when the cache was below 20 entries or its
    oldest entry carries another identifier. *)
Theorem put_keeps_lookups (w : world) (entry : data_file) (u : string)
    (r : response) :
  (datafile u w).1 = Ok r ->
  length (recent_data_files w) < 20
  ∨ (∃ oldest rest,
       recent_data_files w = oldest :: rest ∧ uuid oldest ≠ u) ->
  (datafile u (recent_data_files_append entry w).2).1 = Ok r.
Proof.
  unfold datafile, recent_data_files_append. cbn [fst snd recent_data_files].
  unfold recent_data_files_maxlen.
  intros Hfound [Hbelow|(oldest & rest & Hcache & Hne)].
  - rewrite append_below by done. by apply datafile_scan_app.
  - destruct (decide (length (recent_data_files w) < 20)) as [Hlt|Hge].
    + rewrite append_below by done. by apply datafile_scan_app.
    + rewrite append_full by lia. rewrite Hcache in Hfound |- *.
      cbn [drop]. apply datafile_scan_app.
      cbn in Hfound. by case_decide.
Qed.

Lemma put_keeps_lookups_witness :
  let w := World ∅ (sample.entry <$> seq 0 20) 20 in
  (datafile "0b1e-1" (recent_data_files_append (sample.entry 20) w).2).1
  = Ok (Response "payload 1" None).
Proof.
  cbn zeta.
  apply (put_keeps_lookups (World ∅ (sample.entry <$> seq 0 20) 20)
           (sample.entry 20) "0b1e-1" (Response "payload 1" None)).
  - reflexivity.
  - right. exists (sample.entry 0), (sample.entry <$> seq 1 19).
    split; [reflexivity | discriminate].
Defined.

(** ** Invariants of the cache under the application *)

Section invariants.
Context (E : externals).
Implicit Types (w : world) (op : operation).

(** What one operation does to the cache and to the count of draws: nothing,
    or one entry for the next identifier, with media type
    [application/json]. *)
Lemma step_cache w op :
  (recent_data_files (step E w op) = recent_data_files w
   ∧ uuid_draws (step E w op) = uuid_draws w)
  ∨ ∃ out_bytes,
      recent_data_files (step E w op) =
        deque.append recent_data_files_maxlen
          (DataFile (uuid4 E (uuid_draws w)) out_bytes "application/json")
          (recent_data_files w)
      ∧ uuid_draws (step E w op) = S (uuid_draws w).
Proof.
  destruct op as [request|request|request|u]; cbn [step]; try by left.
  pose proof (centroids_as_pipeline E request w) as Hrun. cbn zeta in Hrun.
  destruct (centroids_pipeline E request) as [out_bytes|e].
  - right. exists out_bytes. by destruct Hrun as (_ & Hcache & Hdraws).
  - left. by destruct Hrun as (_ & Hcache & Hdraws).
Qed.

Lemma step_media_type w op :
  Forall (fun entry => mime_type entry = "application/json"%string)
    (recent_data_files w) ->
  Forall (fun entry => mime_type entry = "application/json"%string)
    (recent_data_files (step E w op)).
Proof.
  intros Hall. destruct (step_cache w op) as [[-> _]|(out_bytes & -> & _)];
    [done|].
  destruct (append_newest recent_data_files_maxlen
              (DataFile (uuid4 E (uuid_draws w)) out_bytes "application/json")
              (recent_data_files w))
    as (older & -> & Holder); [unfold recent_data_files_maxlen; lia|].
  apply Forall_app. split; [|by repeat constructor].
  apply Forall_forall. intros entry Hin.
  rewrite Forall_forall in Hall. by apply Hall, Holder.
Qed.

Lemma step_ids w op :
  Inj (=) (=) (uuid4 E) ->
  NoDup (uuid <$> recent_data_files w) ∧ ids_drawn E w ->
  NoDup (uuid <$> recent_data_files (step E w op)) ∧ ids_drawn E (step E w op).
Proof.
  intros Hinj [Hnodup Hdrawn]. unfold ids_drawn in *.
  destruct (step_cache w op) as [[-> ->]|(out_bytes & -> & ->)]; [done|].
  set (u := uuid4 E (uuid_draws w)).
  destruct (append_newest_sublist recent_data_files_maxlen
              (DataFile u out_bytes "application/json") (recent_data_files w))
    as (older & -> & Holder); [unfold recent_data_files_maxlen; lia|].
  split.
  - rewrite fmap_app. apply NoDup_app. split_and!.
    + eapply sublist_NoDup; [exact Hnodup | by apply fmap_sublist].
    + intros x Hx Hnew. cbn in Hnew. apply list_elem_of_singleton in Hnew as ->.
      apply list_elem_of_fmap in Hx as (entry & Hu & Hentry).
      destruct (Hdrawn entry) as (k & Hk & Hid).
      { eapply sublist_subseteq; [exact Holder | exact Hentry]. }
      rewrite Hid in Hu. apply Hinj in Hu. lia.
    + cbn. apply NoDup_singleton.
  - intros entry Hin. apply elem_of_app in Hin as [Hin|Hin].
    + destruct (Hdrawn entry) as (k & Hk & Hid).
      { eapply sublist_subseteq; [exact Holder | exact Hin]. }
      exists k. split; [lia | done].
    + apply list_elem_of_singleton in Hin as ->.
      exists (uuid_draws w). split; [lia | done].
Qed.

Lemma run_snoc ops op w : run E (ops ++ [op]) w = step E (run E ops w) op.
Proof. unfold run. by rewrite foldl_app. Qed.

Lemma run_ids files ops :
  Inj (=) (=) (uuid4 E) ->
  NoDup (uuid <$> recent_data_files (run E ops (initial_world files)))
  ∧ ids_drawn E (run E ops (initial_world files)).
Proof.
  intros Hinj. induction ops as [|op ops IH] using rev_ind.
  - split; [cbn; constructor|]. intros entry Hin. cbn in Hin.
    by apply not_elem_of_nil in Hin.
  - rewrite run_snoc. by apply step_ids.
Qed.

End invariants.

(** X5: whatever the clients ask of a server that started with an empty
    cache, every entry of the cache has media type [application/json]. *)
Theorem run_cache_media_type (E : externals) (files : filesystem)
    (ops : list operation) :
  Forall (fun entry => mime_type entry = "application/json"%string)
    (recent_data_files (run E ops (initial_world files))).
Proof.
  induction ops as [|op ops IH] using rev_ind; [constructor|].
  rewrite run_snoc. by apply step_media_type.
Qed.

(** X6: when the generator never repeats an identifier, no two entries of
    the cache carry the same identifier, whatever the clients have asked. *)
Theorem run_ids_distinct (E : externals) (files : filesystem)
    (ops : list operation) :
  Inj (=) (=) (uuid4 E) ->
  NoDup (uuid <$> recent_data_files (run E ops (initial_world files))).
Proof. intros Hinj. by destruct (run_ids E files ops Hinj). Qed.

(** X7: when the generator never repeats an identifier, every entry that is
    in the cache is served under its own identifier with its own payload. *)
Theorem run_entries_served (E : externals) (files : filesystem)
    (ops : list operation) (entry : data_file) :
  Inj (=) (=) (uuid4 E) ->
  let w := run E ops (initial_world files) in
  entry ∈ recent_data_files w ->
  datafile (uuid entry) w = (Ok (Response (bytes entry) None), w).
Proof.
  intros Hinj. cbn zeta. intros Hin.
  destruct (run_ids E files ops Hinj) as [Hnodup _].
  apply list_elem_of_split in Hin as (older & newer & Hsplit).
  unfold datafile. rewrite Hsplit in Hnodup |- *. f_equal.
  apply datafile_scan_first.
  rewrite fmap_app, fmap_cons in Hnodup.
  apply NoDup_app in Hnodup as (_ & Hdisjoint & _).
  intros Hold. apply (Hdisjoint _ Hold). apply elem_of_cons. by left.
Qed.

(** [str] gives different texts for different numbers. *)
Lemma str_inj (a b : nat) : str a = str b -> a = b.
Proof.
  unfold str. intros Heq. apply DecimalNat.Unsigned.to_uint_inj.
  apply (f_equal NilEmpty.uint_of_string) in Heq.
  rewrite !NilEmpty.usu in Heq. by injection Heq.
Qed.

Lemma sample_uuid4_inj : Inj (=) (=) (uuid4 sample.libraries).
Proof. intros a b Heq. cbn in Heq. apply str_inj. by injection Heq. Qed.

Lemma run_ids_distinct_witness :
  let request := WPSRequest {[ "layer" := sample.layer ]} in
  NoDup
    (uuid <$> recent_data_files
       (run sample.libraries [CallCentroids request; CallCentroids request]
          (initial_world ∅))).
Proof.
  exact (run_ids_distinct sample.libraries ∅
           [CallCentroids (WPSRequest {[ "layer" := sample.layer ]});
            CallCentroids (WPSRequest {[ "layer" := sample.layer ]})]
           sample_uuid4_inj).
Defined.

Lemma run_entries_served_witness :
  let request := WPSRequest {[ "layer" := sample.layer ]} in
  let w :=
    run sample.libraries [CallCentroids request; CallCentroids request]
      (initial_world ∅) in
  datafile "0b1e-1" w = (Ok (Response "features: 3" None), w).
Proof.
  cbn zeta.
  apply (run_entries_served sample.libraries ∅
           [CallCentroids (WPSRequest {[ "layer" := sample.layer ]});
            CallCentroids (WPSRequest {[ "layer" := sample.layer ]})]
           (DataFile "0b1e-1" "features: 3" "application/json")
           sample_uuid4_inj).
  apply elem_of_cons. right. apply elem_of_cons. left. reflexivity.
Defined.

(** ** The loop over the features *)

Lemma assoc_get_set_eq (key : string) (v : json)
    (members : list (string * json)) :
  assoc_get key (assoc_set key v members) = Some v.
Proof.
  induction members as [|[k v0] members IH]; cbn.
  - by case_decide.
  - case_decide as Hk; cbn; by case_decide.
Qed.

Lemma assoc_get_set_ne (key key' : string) (v : json)
    (members : list (string * json)) :
  key' ≠ key ->
  assoc_get key' (assoc_set key v members) = assoc_get key' members.
Proof.
  intros Hne. induction members as [|[k v0] members IH]; cbn.
  - case_decide; [congruence | done].
  - case_decide as Hk; cbn.
    + subst k. case_decide; [congruence | done].
    + case_decide; [done | exact IH].
Qed.

Lemma assoc_set_same (key : string) (v : json)
    (members : list (string * json)) :
  assoc_get key members = Some v -> assoc_set key v members = members.
Proof.
  induction members as [|[k v0] members IH]; cbn; [done|].
  case_decide as Hk.
  - by intros [= ->].
  - intros Hget. by rewrite IH.
Qed.

Lemma assoc_set_keys (key : string) (v v0 : json)
    (members : list (string * json)) :
  assoc_get key members = Some v0 ->
  (assoc_set key v members).*1 = members.*1.
Proof.
  induction members as [|[k v1] members IH]; cbn; [done|].
  case_decide as Hk; [done|]. intros Hget. cbn. by rewrite IH.
Qed.

Lemma centroid_feature_ok (E : externals) (feature feature' : json) :
  centroid_feature E feature = Ok feature' -> centroid_of E feature feature'.
Proof.
  unfold centroid_feature, json_getitem.
  destruct feature as [| | | | |elements|members]; try done.
  destruct (assoc_get "geometry" members) as [g|] eqn:Hg; [|done].
  cbn [mbind result_bind].
  destruct (shape E g) as [geom|] eqn:Hshape; [|done].
  cbn [mbind result_bind json_setitem]. intros [= <-].
  by exists members, g, geom.
Qed.

Lemma centroid_each_ok (E : externals) (features features' : list json) :
  centroid_each E features = Ok features' ->
  Forall2 (centroid_of E) features features'.
Proof.
  revert features'. induction features as [|feature features IH];
    intros features'; cbn [centroid_each].
  - intros [= <-]. constructor.
  - destruct (centroid_feature E feature) as [feature'|] eqn:Hf; [|done].
    cbn [mbind result_bind].
    destruct (centroid_each E features) as [rest'|] eqn:Hrest; [|done].
    cbn [mbind result_bind mret result_ret]. intros [= <-].
    constructor; [by apply centroid_feature_ok | by apply IH].
Qed.

(** X14: [centroids] changes the geometries and nothing else: in the
    collection that the loop leaves, every member other than ['features'] is
    as before and the keys are the same, in the same order; when the
    features are a list, the new list pairs off with the old one, and every
    member of a feature other than ['geometry'] is as before. *)
Theorem centroid_features_frame (E : externals) (data data' : json) :
  centroid_features E data = Ok data' ->
  ∃ members members',
    data = JObj members ∧ data' = JObj members'
    ∧ members'.*1 = members.*1
    ∧ (∀ key, key ≠ "features"%string ->
         assoc_get key members' = assoc_get key members)
    ∧ (∀ features, assoc_get "features" members = Some (JArr features) ->
         ∃ features',
           assoc_get "features" members' = Some (JArr features')
           ∧ Forall2
               (fun feature feature' =>
                  ∀ key, key ≠ "geometry"%string ->
                    json_getitem feature' key = json_getitem feature key)
               features features').
Proof.
  unfold centroid_features, json_getitem.
  destruct data as [| | | | |elements|members]; try done.
  destruct (assoc_get "features" members) as [value|] eqn:Hvalue; [|done].
  cbn [mbind result_bind].
  destruct (json_iter value) as [items|] eqn:Hiter; [|done].
  cbn [mbind result_bind].
  destruct (centroid_each E items) as [items'|] eqn:Heach; [|done].
  cbn [mbind result_bind]. intros Hdata.
  assert (∀ elements, value = JArr elements -> items = elements) as Hitems.
  { intros elements' ->. cbn in Hiter. by injection Hiter. }
  destruct value as [| | | | |elements'|submembers];
    cbn [json_setitem mret result_ret] in Hdata; injection Hdata as <-;
    exists members; eexists; (split; [reflexivity|]); (split; [reflexivity|]).
  1-5,7: by split_and!; [done | done | intros features Hf; congruence].
  rewrite (Hitems elements' eq_refl) in Heach. split_and!.
  - by eapply assoc_set_keys.
  - intros key Hkey. by apply assoc_get_set_ne.
  - intros features Hf. rewrite Hvalue in Hf. injection Hf as <-.
    exists items'. split; [apply assoc_get_set_eq|].
    apply centroid_each_ok in Heach.
    eapply Forall2_impl; [exact Heach|].
    intros feature feature' (fm & g & geom & -> & Hg & _ & ->) key Hkey.
    cbn. by rewrite assoc_get_set_ne.
Qed.

Lemma centroid_features_frame_witness :
  ∃ members members' : list (string * json),
    sample.geojson = JObj members ∧ members'.*1 = members.*1.
Proof.
  destruct (centroid_features_frame sample.libraries sample.geojson
              sample.geojson)
    as (members & members' & Hdata & _ & Hkeys & _).
  - reflexivity.
  - by exists members, members'.
Defined.

(** X15: what the loop does when ['features'] is not a list of features.
    Without the key the handler ends in [KeyError]; an empty list, an empty
    dict and an empty string leave the collection as it is; a number, a
    boolean, [None], a string with characters and a dict with keys end in
    [TypeError]. *)
Theorem centroid_features_edges (E : externals)
    (members : list (string * json)) :
  (assoc_get "features" members = None ->
   centroid_features E (JObj members) = Raise (KeyError "features"))
  ∧ (∀ value,
       assoc_get "features" members = Some value ->
       value = JArr [] ∨ value = JObj [] ∨ value = JStr EmptyString ->
       centroid_features E (JObj members) = Ok (JObj members))
  ∧ (∀ value,
       assoc_get "features" members = Some value ->
       value = JNull ∨ (∃ b, value = JBool b) ∨ (∃ z, value = JInt z)
       ∨ (∃ f, value = JFloat f) ∨ (∃ c s, value = JStr (String c s))
       ∨ (∃ member rest, value = JObj (member :: rest)) ->
       centroid_features E (JObj members) = Raise TypeError).
Proof.
  unfold centroid_features, json_getitem. split_and!.
  - by intros ->.
  - intros value Hvalue [->|[->| ->]]; rewrite Hvalue; cbn; [|done..].
    by rewrite (assoc_set_same _ _ _ Hvalue).
  - intros value Hvalue
      [->|[[b ->]|[[z ->]|[[f ->]|[(c & s & ->)|(member & rest & ->)]]]]];
      by rewrite Hvalue.
Qed.

Lemma centroid_features_edges_witness :
  centroid_features sample.libraries
    (JObj [("type", JStr "FeatureCollection"); ("features", JObj [])])
  = Ok (JObj [("type", JStr "FeatureCollection"); ("features", JObj [])])
  ∧ centroid_features sample.libraries
      (JObj [("type", JStr "FeatureCollection"); ("features", JStr "none")])
    = Raise TypeError
  ∧ centroid_features sample.libraries
      (JObj [("type", JStr "FeatureCollection")])
    = Raise (KeyError "features").
Proof.
  split_and!.
  - destruct (centroid_features_edges sample.libraries
                [("type", JStr "FeatureCollection"); ("features", JObj [])])
      as (_ & Hempty & _).
    apply (Hempty (JObj [])); [reflexivity | by right; left].
  - destruct (centroid_features_edges sample.libraries
                [("type", JStr "FeatureCollection"); ("features", JStr "none")])
      as (_ & _ & Hbad).
    apply (Hbad (JStr "none")); [reflexivity|].
    do 4 right. left. by eexists _, _.
  - destruct (centroid_features_edges sample.libraries
                [("type", JStr "FeatureCollection")])
      as (Hmissing & _ & _).
    by apply Hmissing.
Defined.

(** ** What the answers of the handlers tell *)

(** X16: for two layers that parse, [feature_count] answers the same
    exactly when the documents hold the same number of [gml:featureMember]
    elements: the count can be read back from the answer. *)
Theorem feature_count_determines_count (E : externals)
    (request1 request2 : wps_request) (layer1 layer2 : string)
    (doc1 doc2 : node) :
  inputs request1 !! "layer" = Some layer1 ->
  inputs request2 !! "layer" = Some layer2 ->
  etree_parse E layer1 = Ok doc1 ->
  etree_parse E layer2 = Ok doc2 ->
  feature_count E request1 = feature_count E request2
  ↔ count_elements (gml_namespace E) "featureMember" doc1
    = count_elements (gml_namespace E) "featureMember" doc2.
Proof.
  intros Hlayer1 Hlayer2 Hdoc1 Hdoc2. unfold feature_count, getitem.
  rewrite Hlayer1, Hlayer2. cbn [mbind result_bind].
  rewrite Hdoc1, Hdoc2. cbn [mbind result_bind mret result_ret].
  rewrite !xpath_descendants_length. split.
  - intros Heq.
    apply (f_equal (fun r => match r with
                             | Ok resp => outputs resp !! "count"%string
                             | Raise _ => None
                             end)) in Heq.
    unfold mret, result_ret in Heq. cbv beta iota in Heq.
    cbn [outputs] in Heq.
  rewrite !lookup_singleton_eq in Heq.
    apply str_inj. congruence.
  - by intros ->.
Qed.

Lemma feature_count_determines_count_witness :
  feature_count sample.libraries (WPSRequest {[ "layer" := sample.layer ]})
  = feature_count sample.libraries
      (WPSRequest {[ "layer" := sample.layer; "crs" := "EPSG:4326" ]}).
Proof.
  apply (feature_count_determines_count sample.libraries
           (WPSRequest {[ "layer" := sample.layer ]})
           (WPSRequest {[ "layer" := sample.layer; "crs" := "EPSG:4326" ]})
           sample.layer sample.layer sample.doc sample.doc);
    reflexivity.
Defined.

Lemma append_exclamation_inj (s1 s2 : string) :
  s1 +:+ "!" = s2 +:+ "!" -> s1 = s2.
Proof.
  revert s2. induction s1 as [|c1 s1 IH]; intros [|c2 s2]; cbn.
  - done.
  - intros [= <- Hrest]. by destruct s2.
  - intros [= -> Hrest]. by destruct s1.
  - intros [= -> Hrest]. f_equal. by apply IH.
Qed.

(** X17: the greeting holds the name and nothing is lost: two requests that
    [say_hello] answers alike carry the same name. *)
Theorem say_hello_name_recovered (request1 request2 : wps_request)
    (s1 s2 : string) :
  inputs request1 !! "name" = Some s1 ->
  inputs request2 !! "name" = Some s2 ->
  say_hello request1 = say_hello request2 ->
  s1 = s2.
Proof.
  intros Hname1 Hname2.
  rewrite (say_hello_run _ _ Hname1), (say_hello_run _ _ Hname2).
  intros Heq.
  apply (f_equal (fun r => match r with
                           | Ok resp => outputs resp !! "message"%string
                           | Raise _ => None
                           end)) in Heq.
  cbv beta iota in Heq. cbn [outputs] in Heq.
  rewrite !lookup_singleton_eq in Heq.
  apply append_exclamation_inj.
  assert (("Hello " +:+ s1 +:+ "!")%string = ("Hello " +:+ s2 +:+ "!")%string)
    as Htext by congruence.
  cbn in Htext. by injection Htext.
Qed.

Lemma say_hello_name_recovered_witness : "World"%string = "World"%string.
Proof.
  apply (say_hello_name_recovered
           (WPSRequest {[ "name" := "World" ]})
           (WPSRequest {[ "name" := "World"; "lang" := "en" ]}));
    reflexivity.
Defined.

(** ** [SayHello._handler] and the response it is given *)

Lemma sayhello_handler_ok (req : SayHello.request)
    (resp resp' : SayHello.response) :
  SayHello._handler req resp = Ok resp' ->
  ∃ name slot,
    SayHello.inputs req !! "name" = Some name
    ∧ SayHello.outputs resp !! "response" = Some slot.
Proof.
  unfold SayHello._handler, getitem.
  destruct (SayHello.inputs req !! "name") as [name|]; [|done].
  cbn [mbind result_bind].
  destruct (SayHello.outputs resp !! "response") as [slot|]; [|done].
  intros _. by exists name, slot.
Qed.

(** X18: [SayHello._handler] writes the slot ['response'] and leaves every
    other slot of the response as it was given. *)
Theorem sayhello_handler_frame (req : SayHello.request)
    (resp resp' : SayHello.response) (key : string) :
  SayHello._handler req resp = Ok resp' ->
  key ≠ "response"%string ->
  SayHello.outputs resp' !! key = SayHello.outputs resp !! key.
Proof.
  intros Hrun Hkey.
  destruct (sayhello_handler_ok req resp resp' Hrun)
    as ([s] & slot & Hname & Hslot).
  rewrite (sayhello_handler_run req resp s slot Hname Hslot) in Hrun.
  injection Hrun as <-. cbn [SayHello.outputs].
  by rewrite lookup_insert_ne.
Qed.

Lemma sayhello_handler_frame_witness :
  SayHello.outputs
    (SayHello.Response
       (<["response" :=
            SayHello.LiteralOutput (Some "Hello World") (Some "unity")]>
          {[ "response" := SayHello.LiteralOutput None None;
             "language" := SayHello.LiteralOutput (Some "en") None ]}))
    !! "language"
  = Some (SayHello.LiteralOutput (Some "en") None).
Proof.
  rewrite (sayhello_handler_frame
             (SayHello.Request {[ "name" := SayHello.LiteralInput "World" ]})
             (SayHello.Response
                {[ "response" := SayHello.LiteralOutput None None;
                   "language" := SayHello.LiteralOutput (Some "en") None ]})
             _ "language").
  - reflexivity.
  - reflexivity.
  - discriminate.
Defined.

(** X19: a second run of [SayHello._handler] on the response of a first
    run, for the same request, gives this response again. *)
Theorem sayhello_handler_idempotent (req : SayHello.request)
    (resp resp' : SayHello.response) :
  SayHello._handler req resp = Ok resp' ->
  SayHello._handler req resp' = Ok resp'.
Proof.
  intros Hrun.
  destruct (sayhello_handler_ok req resp resp' Hrun)
    as ([s] & slot & Hname & Hslot).
  rewrite (sayhello_handler_run req resp s slot Hname Hslot) in Hrun.
  injection Hrun as <-.
  rewrite (sayhello_handler_run req _ s
             (SayHello.LiteralOutput (Some ("Hello " +:+ s)) (Some "unity"))
             Hname);
    [|by cbn; rewrite lookup_insert_eq].
  cbn [SayHello.outputs]. by rewrite insert_insert_eq.
Qed.

Lemma sayhello_handler_idempotent_witness :
  SayHello._handler
    (SayHello.Request {[ "name" := SayHello.LiteralInput "World" ]})
    (SayHello.Response
       {[ "response" :=
            SayHello.LiteralOutput (Some "Hello World") (Some "unity") ]})
  = Ok (SayHello.Response
          {[ "response" :=
               SayHello.LiteralOutput (Some "Hello World") (Some "unity") ]}).
Proof.
  apply (sayhello_handler_idempotent
           (SayHello.Request {[ "name" := SayHello.LiteralInput "World" ]})
           (SayHello.Response
              {[ "response" := SayHello.LiteralOutput None None ]})).
  reflexivity.
Defined.

(** X20: the order of the failures of [SayHello._handler]: without the
    input ['name'] it ends in [KeyError] for ['name'], whether or not the
    response has the slot; with the input and without the slot ['response']
    it ends in [KeyError] for ['response']; with both it does not fail, and
    overwrites what the slot held. *)
Theorem sayhello_handler_failures (req : SayHello.request)
    (resp : SayHello.response) :
  (SayHello.inputs req !! "name" = None ->
   SayHello._handler req resp = Raise (KeyError "name"))
  ∧ (is_Some (SayHello.inputs req !! "name") ->
     SayHello.outputs resp !! "response" = None ->
     SayHello._handler req resp = Raise (KeyError "response"))
  ∧ (is_Some (SayHello.inputs req !! "name") ->
     is_Some (SayHello.outputs resp !! "response") ->
     ∃ resp', SayHello._handler req resp = Ok resp').
Proof.
  unfold SayHello._handler, getitem. split_and!.
  - by intros ->.
  - intros [name ->] ->. done.
  - intros [[s] Hname] [slot Hslot]. eexists.
    apply (sayhello_handler_run req resp s slot Hname Hslot).
Qed.

Lemma sayhello_handler_failures_witness :
  SayHello._handler (SayHello.Request ∅) (SayHello.Response ∅)
  = Raise (KeyError "name")
  ∧ SayHello._handler
      (SayHello.Request {[ "name" := SayHello.LiteralInput "World" ]})
      (SayHello.Response ∅)
    = Raise (KeyError "response").
Proof.
  split.
  - destruct (sayhello_handler_failures (SayHello.Request ∅)
                (SayHello.Response ∅)) as (Hname & _ & _).
    by apply Hname.
  - destruct (sayhello_handler_failures
                (SayHello.Request {[ "name" := SayHello.LiteralInput "World" ]})
                (SayHello.Response ∅)) as (_ & Hslot & _).
    apply Hslot; [by eexists | reflexivity].
Defined.

(** ** The entry point *)

Lemma append_empty (s : string) : EmptyString +:+ s = s.
Proof. reflexivity. Qed.

Lemma append_cons (c : Ascii.ascii) (s t : string) :
  String c s +:+ t = String c (s +:+ t).
Proof. reflexivity. Qed.

Section split_facts.
Variable sep : Ascii.ascii.

Lemma split_not_nil (s : string) : split sep s ≠ [].
Proof.
  induction s as [|c s IH]; cbn; [done|].
  case_decide; [done|]. by destruct (split sep s).
Qed.

Lemma split_length (s : string) :
  length (split sep s) = S (occurrences sep s).
Proof.
  induction s as [|c s IH]; cbn; [done|].
  case_decide; cbn; [by rewrite IH|].
  destruct (split sep s) as [|piece pieces] eqn:Hs; [|done].
  by destruct (split_not_nil s).
Qed.

Lemma split_without (s : string) :
  occurrences sep s = 0 -> split sep s = [s].
Proof.
  induction s as [|c s IH]; cbn; [done|].
  case_decide; [done|]. intros Hs. by rewrite IH.
Qed.

Lemma split_at_first (before after : string) :
  occurrences sep before = 0 ->
  split sep (before +:+ String sep after) = before :: split sep after.
Proof.
  induction before as [|c before IH].
  - intros _. rewrite append_empty. cbn. by case_decide.
  - rewrite append_cons. cbn. case_decide; [done|]. intros Hb. by rewrite IH.
Qed.

Lemma occurrences_app (before after : string) :
  occurrences sep (before +:+ after)
  = occurrences sep before + occurrences sep after.
Proof.
  induction before as [|c before IH]; [done|].
  rewrite append_cons. cbn. rewrite IH. lia.
Qed.

End split_facts.

(** [split] on some texts, as [str.split] answers them. *)
Example split_host_port :
  split colon "localhost:5000" = ["localhost"; "5000"]%string.
Proof. reflexivity. Qed.

Example split_empty : split colon EmptyString = [EmptyString].
Proof. reflexivity. Qed.

Example split_edges :
  split colon ":8080:" = [EmptyString; "8080"%string; EmptyString].
Proof. reflexivity. Qed.

(** X21: for a [listen] of the form [host:port] with no further colon,
    [main] starts a server for this host and for the number that [int] reads
    from the port: [waitress] when [-w] was given, else the development
    server, which reloads exactly when [-d] was given; the application gets
    [debug] from [-d]. *)
Theorem main_serves (int_of_str : string -> result Z) (typed : command_line)
    (host port_text : string) (port : Z) :
  listen (parse_args typed) = host +:+ ":" +:+ port_text ->
  occurrences colon host = 0 ->
  occurrences colon port_text = 0 ->
  int_of_str port_text = Ok port ->
  main int_of_str typed =
  Ok (Launch (given_debug typed)
        (if given_waitress typed then WaitressServe host port
         else RunSimple host port (given_debug typed))).
Proof.
  intros Hlisten Hhost Hport Hint. unfold main. cbn zeta. rewrite Hlisten.
  change (host +:+ ":" +:+ port_text) with (host +:+ String colon port_text).
  rewrite split_at_first, split_without by done.
  cbn [mbind result_bind]. by rewrite Hint.
Qed.

Lemma main_serves_witness :
  let int_of_str text :=
    if decide (text = "5000"%string) then Ok 5000%Z else Raise ValueError in
  main int_of_str (CommandLine None true false)
  = Ok (Launch true (RunSimple "localhost" 5000 true)).
Proof.
  cbn zeta.
  apply (main_serves _ (CommandLine None true false) "localhost" "5000" 5000);
    reflexivity.
Defined.

(** X22: [main] starts no server for a [listen] that does not hold exactly
    one colon (a bare host, or an address with colons of its own): the
    unpacking ends in [ValueError], before [int] is asked.  With exactly one
    colon, an exception of [int] on the port ends [main]. *)
Theorem main_rejects (int_of_str : string -> result Z) (typed : command_line) :
  (occurrences colon (listen (parse_args typed)) ≠ 1 ->
   main int_of_str typed = Raise ValueError)
  ∧ (∀ host port_text e,
       listen (parse_args typed) = host +:+ ":" +:+ port_text ->
       occurrences colon host = 0 ->
       occurrences colon port_text = 0 ->
       int_of_str port_text = Raise e ->
       main int_of_str typed = Raise e).
Proof.
  split.
  - intros Hcount. unfold main. cbn zeta.
    pose proof (split_length colon (listen (parse_args typed))) as Hlen.
    destruct (split colon (listen (parse_args typed)))
      as [|host [|port [|extra pieces]]]; try done.
    cbn [length] in Hlen. lia.
  - intros host port_text e Hlisten Hhost Hport Hint.
    unfold main. cbn zeta. rewrite Hlisten.
    change (host +:+ ":" +:+ port_text) with (host +:+ String colon port_text).
    rewrite split_at_first, split_without by done.
    cbn [mbind result_bind]. by rewrite Hint.
Qed.

Lemma main_rejects_witness :
  main (fun _ => Ok 5000%Z) (CommandLine (Some "[::1]:5000") false true)
  = Raise ValueError
  ∧ main (fun _ => Ok 5000%Z) (CommandLine (Some "localhost") false false)
    = Raise ValueError.
Proof.
  split.
  - destruct (main_rejects (fun _ => Ok 5000%Z)
                (CommandLine (Some "[::1]:5000") false true)) as [Hcount _].
    apply Hcount. vm_compute. lia.
  - destruct (main_rejects (fun _ => Ok 5000%Z)
                (CommandLine (Some "localhost") false false)) as [Hcount _].
    apply Hcount. vm_compute. lia.
Defined.

(** * Geometries read back, and failures before the append *)

Lemma append_assoc (a b c : string) : (a +:+ b) +:+ c = a +:+ (b +:+ c).
Proof.
  induction a as [|x a IH]; [done|].
  rewrite !append_cons. by rewrite IH.
Qed.

Section read_back.
Context (E : externals).

Lemma centroid_of_replaced (feature feature' : json) :
  centroid_of E feature feature' -> centroid_replaced E feature feature'.
Proof.
  intros (members & g & geom & -> & Hg & Hshape & ->).
  exists g, geom. unfold json_getitem. split_and!.
  - by rewrite Hg.
  - done.
  - by rewrite assoc_get_set_eq.
  - intros key Hkey. by rewrite assoc_get_set_ne.
Qed.

Lemma readable_centroid_of (feature : json) :
  readable_feature E feature -> ∃ feature', centroid_of E feature feature'.
Proof.
  intros (g & geom & Hg & Hshape). unfold json_getitem in Hg.
  destruct feature as [| | | | |elements|members]; try done.
  destruct (assoc_get "geometry" members) as [g0|] eqn:Hget; [|done].
  injection Hg as ->. eexists. by exists members, g, geom.
Qed.

Lemma centroid_of_readable (feature feature' : json) :
  centroid_of E feature feature' -> readable_feature E feature.
Proof.
  intros (members & g & geom & -> & Hg & Hshape & _).
  exists g, geom. unfold json_getitem. by rewrite Hg.
Qed.

Lemma readable_features_run (features : list json) :
  Forall (readable_feature E) features ->
  ∃ features',
    centroid_each E features = Ok features'
    ∧ Forall2 (centroid_replaced E) features features'.
Proof.
  intros Hreadable.
  destruct (centroid_each_run E features) as (features' & Hrun & Hall).
  { eapply Forall_impl; [exact Hreadable|]. apply readable_centroid_of. }
  exists features'. split; [done|].
  eapply Forall2_impl; [exact Hall|]. apply centroid_of_replaced.
Qed.

End read_back.

(** X13: the loop of [centroids] ends without an exception exactly when
    every feature has a ['geometry'] that [shape] reads; the list it leaves
    then pairs off with the list it was given, and each feature read back has
    [mapping(geom.centroid)] under ['geometry'], for the geometry read from
    the feature it replaces, and its other members as they were. *)
Theorem centroid_each_replaces (E : externals) (features : list json) :
  ((∃ features', centroid_each E features = Ok features')
   ↔ Forall (readable_feature E) features)
  ∧ (∀ features',
       centroid_each E features = Ok features' ->
       Forall2 (centroid_replaced E) features features').
Proof.
  split; [split|].
  - intros [features' Hrun]. apply centroid_each_ok in Hrun.
    induction Hrun as [|feature feature' features features' Hf _ IH];
      constructor; [by eapply centroid_of_readable | done].
  - intros Hreadable.
    destruct (readable_features_run E features Hreadable) as (features' & Hrun & _).
    by exists features'.
  - intros features' Hrun. apply centroid_each_ok in Hrun.
    eapply Forall2_impl; [exact Hrun|]. apply centroid_of_replaced.
Qed.

Lemma centroid_each_replaces_witness :
  ∃ features',
    centroid_each sample.libraries
      [sample.feature "a" 1 2; sample.feature "b" 3 4] = Ok features'
    ∧ Forall2 (centroid_replaced sample.libraries)
        [sample.feature "a" 1 2; sample.feature "b" 3 4] features'.
Proof.
  destruct (centroid_each_replaces sample.libraries
              [sample.feature "a" 1 2; sample.feature "b" 3 4])
    as [[_ Hruns] Hreplaced].
  destruct Hruns as [features' Hrun].
  - repeat constructor; do 2 eexists; split; reflexivity.
  - exists features'. split; [exact Hrun | by apply Hreplaced].
Defined.

(** X10: when a step of [centroids] before the append raises (the layer is
    missing, the encoding, the tool, the reading of its output, the JSON
    parser or the loop over the features fails), the handler ends in this
    exception, having drawn no identifier and with the cache as it was. *)
Theorem centroids_failure_before_append (E : externals)
    (request : wps_request) (w : world) (e : exn) :
  centroids_pipeline E request = Raise e ->
  (centroids E request w).1 = Raise e
  ∧ recent_data_files (centroids E request w).2 = recent_data_files w
  ∧ uuid_draws (centroids E request w).2 = uuid_draws w.
Proof.
  intros Hpipe. pose proof (centroids_as_pipeline E request w) as Hrun.
  cbn zeta in Hrun. by rewrite Hpipe in Hrun.
Qed.

Lemma centroids_failure_before_append_witness :
  let request := WPSRequest {[ "layer" := sample.broken_layer ]} in
  let w := World ∅ (sample.entry <$> seq 1 3) 4 in
  (centroids sample.libraries request w).1 = Raise (CalledProcessError 1)
  ∧ recent_data_files (centroids sample.libraries request w).2
    = sample.entry <$> seq 1 3
  ∧ uuid_draws (centroids sample.libraries request w).2 = 4.
Proof.
  cbn zeta.
  destruct (centroids_failure_before_append sample.libraries
              (WPSRequest {[ "layer" := sample.broken_layer ]})
              (World ∅ (sample.entry <$> seq 1 3) 4) (CalledProcessError 1))
    as (Hraise & Hcache & Hdraws).
  - reflexivity.
  - split_and!; [exact Hraise | exact Hcache | exact Hdraws].
Defined.

(** ** [centroids] from the layer to the fetched result *)

(** C4: for a valid layer (the tool converts it into a collection with one
    feature for each [gml:featureMember] of the layer, and [shape] reads the
    geometry of every feature), with a geometry library whose centroids are
    points, a server root that is an absolute URL and a generator that gives
    an identifier not yet in the cache: [centroids] answers a reference
    whose URL is the absolute URL of the retrieval route for the identifier
    drawn in this call, with media type [application/json]; the entry it
    caches has this identifier and media type [application/json]; the
    retrieval route answers for this identifier with the JSON text of a
    collection whose list of features has as many features as the layer has
    feature members, each feature read back with the centroid of its former
    geometry, a point, under ['geometry'] and its other members as they
    were. *)
Theorem centroids_end_to_end (E : externals) (request : wps_request)
    (w : world) (layer content converted text : string) (doc : node)
    (members : list (string * json)) (features : list json) :
  inputs request !! "layer" = Some layer ->
  encode_utf8 E layer = Ok content ->
  ogr2ogr E (Some content) = ToolExit 0 (Some converted) ->
  decode_utf8 E converted = Ok text ->
  json_loads E text = Ok (JObj members) ->
  assoc_get "features" members = Some (JArr features) ->
  Forall (readable_feature E) features ->
  etree_parse E layer = Ok doc ->
  length features = count_elements (gml_namespace E) "featureMember" doc ->
  (∀ geom, is_point (mapping E (centroid E geom))) ->
  absolute_url (url_root E) ->
  uuid4 E (uuid_draws w) ∉ uuid <$> recent_data_files w ->
  ∃ data' features' older,
    let u := uuid4 E (uuid_draws w) in
    let url := url_root E +:+ "/datafile/" +:+ u in
    let out_bytes := json_dumps E data' in
    let w' := (centroids E request w).2 in
    (centroids E request w).1 =
      Ok (WPSResponse
            {[ "centroids_layer" :=
                 OutReference (FileReference url "application/json") ]})
    ∧ absolute_url url
    ∧ uuid_draws w' = S (uuid_draws w)
    ∧ recent_data_files w' = older ++ [DataFile u out_bytes "application/json"]
    ∧ datafile u w' = (Ok (Response out_bytes None), w')
    ∧ json_getitem data' "features" = Ok (JArr features')
    ∧ (∀ key, key ≠ "features"%string ->
         json_getitem data' key = json_getitem (JObj members) key)
    ∧ length features'
      = count_elements (gml_namespace E) "featureMember" doc
    ∧ Forall2 (centroid_replaced E) features features'
    ∧ Forall
        (fun feature' =>
           ∃ g', json_getitem feature' "geometry" = Ok g' ∧ is_point g')
        features'.
Proof.
  intros Hlayer Hencode Htool Hdecode Hloads Hfeatures Hreadable Hdoc Hcount
    Hpoint Hroot Hfresh.
  destruct (readable_features_run E features Hreadable)
    as (features' & Heach & Hreplaced).
  set (data' := JObj (assoc_set "features" (JArr features') members)).
  set (u := uuid4 E (uuid_draws w)).
  set (entry := DataFile u (json_dumps E data') "application/json").
  destruct (append_newest recent_data_files_maxlen entry (recent_data_files w))
    as (older & Happend & Holder); [unfold recent_data_files_maxlen; lia|].
  assert (centroids_pipeline E request = Ok (json_dumps E data')) as Hpipe.
  { unfold centroids_pipeline, getitem, converted_layer.
    rewrite Hlayer. cbn [mbind result_bind]. rewrite Hencode.
    cbn [mbind result_bind]. rewrite Htool. cbn [mbind result_bind].
    case_decide; [|done]. cbn [mbind result_bind]. rewrite Hdecode.
    cbn [mbind result_bind]. rewrite Hloads. cbn [mbind result_bind].
    by rewrite (centroid_features_run E _ _ _ Hfeatures Heach). }
  pose proof (centroids_as_pipeline E request w) as Hrun. cbn zeta in Hrun.
  rewrite Hpipe in Hrun. destruct Hrun as (Hresponse & Hcache & Hdraws).
  fold u entry in Hcache. rewrite Happend in Hcache.
  exists data', features', older. cbn zeta. fold u.
  split_and!.
  - exact Hresponse.
  - destruct Hroot as (scheme & rest & Hscheme & ->).
    exists scheme, (rest +:+ "/datafile/" +:+ u). split; [done|].
    by rewrite !append_assoc.
  - exact Hdraws.
  - exact Hcache.
  - unfold datafile. rewrite Hcache. f_equal.
    change u with (uuid entry) at 1.
    apply (datafile_scan_first older entry []).
    intros Hin. apply Hfresh. fold u. change (uuid entry) with u in Hin.
    apply list_elem_of_fmap in Hin as (e & -> & He).
    apply list_elem_of_fmap. exists e. split; [done | by apply Holder].
  - unfold data', json_getitem. by rewrite assoc_get_set_eq.
  - intros key Hkey. unfold data', json_getitem.
    by rewrite assoc_get_set_ne.
  - rewrite <- Hcount. symmetry. by eapply Forall2_length.
  - exact Hreplaced.
  - clear -Hreplaced Hpoint.
    induction Hreplaced as [|feature feature' features features' Hf _ IH];
      constructor; [|done].
    destruct Hf as (g & geom & _ & _ & Hnew & _). eauto.
Qed.

(** A call on a server whose cache is full: the oldest entry leaves, the new
    one is served. *)
Lemma centroids_end_to_end_witness :
  let request := WPSRequest {[ "layer" := sample.layer ]} in
  let w := World ∅ (sample.entry <$> seq 1 20) 21 in
  let w' := (centroids sample.libraries request w).2 in
  (centroids sample.libraries request w).1 =
    Ok (WPSResponse
          {[ "centroids_layer" :=
               OutReference
                 (FileReference "http://localhost:5000/datafile/0b1e-21"
                    "application/json") ]})
  ∧ datafile "0b1e-21" w' = (Ok (Response "features: 3" None), w').
Proof.
  cbn zeta.
  destruct (centroids_end_to_end sample.libraries
              (WPSRequest {[ "layer" := sample.layer ]})
              (World ∅ (sample.entry <$> seq 1 20) 21)
              sample.layer sample.layer sample.geojson_text sample.geojson_text
              sample.doc
              [("type", JStr "FeatureCollection");
               ("features",
                JArr [sample.feature "a" 1 2; sample.feature "b" 3 4;
                      sample.feature "c" 5 6])]
              [sample.feature "a" 1 2; sample.feature "b" 3 4;
               sample.feature "c" 5 6])
    as (data' & features' & older & Hresponse & _ & _ & _ & Hfetch & Hlist
        & _ & Hlength & _ & _).
  - reflexivity.
  - reflexivity.
  - reflexivity.
  - reflexivity.
  - reflexivity.
  - reflexivity.
  - repeat constructor; do 2 eexists; split; reflexivity.
  - reflexivity.
  - reflexivity.
  - intros [x y]. reflexivity.
  - exists "http"%string, "localhost:5000"%string. split; [discriminate|].
    reflexivity.
  - apply (bool_decide_unpack _). vm_compute. exact I.
  - split; [exact Hresponse|].
    assert (json_dumps sample.libraries data' = "features: 3"%string) as Hbytes.
    { cbn [json_dumps sample.libraries]. rewrite Hlist.
      cbn [mbind result_bind json_iter].
      destruct features' as [|f1 [|f2 [|f3 [|f4 features']]]];
        try discriminate.
      reflexivity. }
    cbn zeta in Hfetch. rewrite Hbytes in Hfetch. exact Hfetch.
Defined.
